(** * agent-deck: persistence and command-line session management

    A shallow embedding of [internal/session/storage.go] and of the
    [add] / [remove] / [detectTool] parts of [cmd/agent-deck/main.go].

    Go strings are byte strings ([string]); slices are lists (a nil slice
    and an empty slice are both [[]]); the file system, the process
    environment, the clock and the terminal multiplexer form an explicit
    [World] threaded through a small state monad. *)

From Stdlib Require Import ZArith Ascii String List Lia Bool.
From stdpp Require Import base option list gmap strings.
From Ceres Require Import Ceres.
Import ListNotations.

Local Open Scope string_scope.
Local Open Scope list_scope.
Local Open Scope stdpp_scope.

(** ** Go's [strings] package, on byte strings *)

Module strings.

(** [strings.HasPrefix(s, prefix)]. *)
Fixpoint HasPrefix (s prefix : string) : bool :=
  match prefix, s with
  | EmptyString, _ => true
  | String _ _, EmptyString => false
  | String p prefix', String c s' => Ascii.eqb c p && HasPrefix s' prefix'
  end.

(** [strings.Contains(s, substr)]: [substr] starts at some offset of [s]. *)
Fixpoint Contains (s substr : string) : bool :=
  HasPrefix s substr ||
  match s with
  | EmptyString => false
  | String _ s' => Contains s' substr
  end.

(** The first loop of [strings.ToLower(s)]: no byte of [s] is
    [utf8.RuneSelf] (128) or more. *)
Fixpoint isASCII (s : string) : bool :=
  match s with
  | EmptyString => true
  | String c s' => (nat_of_ascii c <? 128)%nat && isASCII s'
  end.

(** The same loop: some byte of [s] is one of [A]..[Z]. *)
Fixpoint hasUpper (s : string) : bool :=
  match s with
  | EmptyString => false
  | String c s' =>
      ((65 <=? nat_of_ascii c)%nat && (nat_of_ascii c <=? 90)%nat)
      || hasUpper s'
  end.

(** One byte of the second loop of [strings.ToLower]: [c += 'a' - 'A']
    when ['A' <= c && c <= 'Z'], every other byte stays. *)
Definition lower_byte (c : ascii) : ascii :=
  let n := nat_of_ascii c in
  if (65 <=? n)%nat && (n <=? 90)%nat then ascii_of_nat (n + 32) else c.

(** The second loop of [strings.ToLower(s)], which an all-ASCII [s] with
    a capital goes through byte by byte. *)
Fixpoint lowerASCII (s : string) : string :=
  match s with
  | EmptyString => EmptyString
  | String c s' => String (lower_byte c) (lowerASCII s')
  end.

(** [strings.ToLower(s)]: an all-ASCII string is returned as it is when
    it has no capital and lowered byte by byte when it has one; any other
    string is handed to [strings.Map(unicode.ToLower, s)], here
    [mapLower], which lowers rune by rune with the Unicode tables. *)
Definition ToLower (mapLower : string -> string) (s : string) : string :=
  if isASCII s
  then if hasUpper s then lowerASCII s else s
  else mapLower s.

(** [strings.Join(elems, sep)]. *)
Fixpoint Join (elems : list string) (sep : string) : string :=
  match elems with
  | [] => EmptyString
  | [e] => e
  | e :: rest => e +:+ sep +:+ Join rest sep
  end.

(** [s[n:]] for [n <= len(s)]. *)
Fixpoint drop (n : nat) (s : string) : string :=
  match n, s with
  | O, _ => s
  | S _, EmptyString => EmptyString
  | S n', String _ s' => drop n' s'
  end.

(** The pieces of [s] between the separator byte [sep]
    ([strings.Split] with a one-byte separator); [cur] is the piece
    read so far. *)
Fixpoint split_on (sep : ascii) (cur : string) (s : string) : list string :=
  match s with
  | EmptyString => [cur]
  | String c s' =>
      if Ascii.eqb c sep then cur :: split_on sep EmptyString s'
      else split_on sep (cur +:+ String c EmptyString) s'
  end.

End strings.

(** ** Go's [path/filepath] package on Unix *)

Module filepath.

Definition Separator : ascii := "/"%char.

(** One path element pushed on the stack of elements kept so far (the
    last kept element first): [Clean] drops empty elements and [.], and
    lets [..] cancel the element before it; at the root [..] is dropped,
    in a relative path a leading [..] is kept. *)
Definition clean_step (rooted : bool) (kept : list string) (elem : string)
  : list string :=
  if String.eqb elem "" || String.eqb elem "." then kept
  else if String.eqb elem ".." then
    match kept with
    | top :: below => if String.eqb top ".." then elem :: kept else below
    | [] => if rooted then [] else [elem]
    end
  else elem :: kept.

(** [filepath.Clean(path)]. *)
Definition Clean (path : string) : string :=
  let rooted := strings.HasPrefix path "/" in
  let kept := fold_left (clean_step rooted)
                (strings.split_on Separator EmptyString path) [] in
  let body := strings.Join (rev kept) "/" in
  if rooted then "/" +:+ body
  else if String.eqb body "" then "." else body.

(** [filepath.Join(elem...)]: leading empty elements are skipped, the
    rest is joined with the separator and cleaned. *)
Fixpoint Join (elem : list string) : string :=
  match elem with
  | [] => EmptyString
  | e :: rest =>
      if String.eqb e "" then Join rest
      else Clean (strings.Join elem "/")
  end.

(** The part of [path] up to and including its last separator. *)
Fixpoint upto_last_sep (path : string) : string :=
  match path with
  | EmptyString => EmptyString
  | String c rest =>
      if strings.Contains path "/" then String c (upto_last_sep rest)
      else EmptyString
  end.

(** [filepath.Dir(path)]. *)
Definition Dir (path : string) : string := Clean (upto_last_sep path).

(** [filepath.IsAbs(path)]. *)
Definition IsAbs (path : string) : bool := strings.HasPrefix path "/".

End filepath.

(** ** Data model of package [session] *)

(** [time.Time], up to [Time.Equal]: nanoseconds since the Unix epoch. *)
Definition Time : Type := Z.

(** Modelled from the spec: the declaration of [Status] is not in the
    sources at hand; it is an enumeration (Running, Waiting, Idle, Error)
    stored as a string, so a snapshot file can also hold a string that is
    none of the four, which [statusToString] meets in its [default] case. *)
Inductive Status : Type :=
| StatusRunning
| StatusWaiting
| StatusIdle
| StatusError
| StatusOther (raw : string).

Module tmux.

(** Modelled from the spec: package [tmux] is not in the sources at hand.
    A session handle keeps what [reconnect(name, title, workDir, command,
    priorStatus)] is given; reconnecting creates no external session. *)
Record Session : Type := mkSession {
  Name : string;
  DisplayName : string;
  WorkDir : string;
  Command : string;
  PreviousStatus : string
}.

Definition ReconnectSessionWithStatus
  (name displayName workDir command previousStatus : string) : Session :=
  mkSession name displayName workDir command previousStatus.

End tmux.

Module Instance.

(** The fields of [session.Instance] that storage.go and main.go use. *)
Record t : Type := mk {
  ID : string;
  Title : string;
  ProjectPath : string;
  GroupPath : string;
  Command : string;
  Tool : string;
  Status : Status;
  CreatedAt : Time;
  tmuxSession : option tmux.Session
}.

End Instance.

Module InstanceData.

(** [InstanceData]: the serializable session data. *)
Record t : Type := mk {
  ID : string;
  Title : string;
  ProjectPath : string;
  GroupPath : string;
  Command : string;
  Tool : string;
  Status : Status;
  CreatedAt : Time;
  TmuxSession : string
}.

End InstanceData.

Module GroupData.

(** [GroupData]: the serializable group data. *)
Record t : Type := mk {
  Name : string;
  Path : string;
  Expanded : bool;
  Order : Z
}.

End GroupData.

Module StorageData.

(** [StorageData]: the JSON structure for persistence. *)
Record t : Type := mk {
  Instances : list InstanceData.t;
  Groups : list GroupData.t;
  UpdatedAt : Time
}.

End StorageData.

Module Group.

(** Modelled from the spec: the declaration of [Group] is not in the
    sources at hand; these are the four fields [SaveWithGroups] reads
    (name, unique path, expanded flag, sibling order index). *)
Record t : Type := mk {
  Name : string;
  Path : string;
  Expanded : bool;
  Order : Z
}.

End Group.

Module GroupTree.

(** Modelled from the spec: the declaration of [GroupTree] is not in the
    sources at hand; [GroupList] is the ordered list of its groups. *)
Record t : Type := mk {
  GroupList : list Group.t
}.

End GroupTree.

(** [Storage]: handles persistence of session data. *)
Record Storage : Type := mkStorage {
  path : string
}.

(** ** The world outside the program *)

(** Error numbers a system call can be made to fail with. *)
Inductive Errno : Type := EACCES | EIO | ENOSPC | EROFS.

(** An [error] of package [os]: the file is not there ([os.IsNotExist]),
    or the call failed for another reason. *)
Inductive OsError : Type :=
| ErrNotExist
| ErrErrno (e : Errno).

Definition os_IsNotExist (err : option OsError) : bool :=
  match err with
  | Some ErrNotExist => true
  | _ => false
  end.

(** A fault to inject into one system call. [partial] is what a failed
    [os.WriteFile] leaves at its destination: [None] if the file is not
    touched, [Some p] if it is left with the bytes [p]. *)
Record Fault : Type := mkFault {
  errno : Errno;
  partial : option string
}.

Inductive Syscall : Type :=
| Stat (name : string)
| ReadFile (name : string)
| WriteFile (name : string) (data : string)
| Rename (oldpath newpath : string)
| MkdirAll (dir : string).

(** What the program did to the outside, in order. *)
Inductive Event : Type :=
| EvSys (call : Syscall) (err : option OsError)
| EvEnableMouseMode (session : string)
| EvUpdateStatus (session : string)
| EvKill (session : string).

(** The world: regular files by path, the process environment, the
    clock, the live sessions of the multiplexer host, the faults the next
    system calls meet (one entry per call, [None] for a call that goes
    through; past the end no call fails), and the events so far. *)
Record World : Type := mkWorld {
  files : gmap string string;
  environ : gmap string string;
  clock : Time;
  sessions : gset string;
  faults : list (option Fault);
  trace : list Event
}.

Definition set_files (f : gmap string string) (w : World) : World :=
  mkWorld f (environ w) (clock w) (sessions w) (faults w) (trace w).

Definition set_sessions (s : gset string) (w : World) : World :=
  mkWorld (files w) (environ w) (clock w) s (faults w) (trace w).

Definition set_faults (fs : list (option Fault)) (w : World) : World :=
  mkWorld (files w) (environ w) (clock w) (sessions w) fs (trace w).

Definition log (e : Event) (w : World) : World :=
  mkWorld (files w) (environ w) (clock w) (sessions w) (faults w)
          (trace w ++ [e]).

(** ** A state monad over the world *)

Definition M (A : Type) : Type := World -> A * World.

Definition ret {A : Type} (a : A) : M A := fun w => (a, w).

Definition bind {A B : Type} (m : M A) (k : A -> M B) : M B :=
  fun w => let (a, w') := m w in k a w'.

Notation "'let*' x ':=' m 'in' k" := (bind m (fun x => k))
  (at level 10, x pattern, m at level 100, k at level 200).

Notation "m ';;' k" := (bind m (fun _ => k))
  (at level 100, k at level 200, right associativity).

Fixpoint mapM {A B : Type} (f : A -> M B) (l : list A) : M (list B) :=
  match l with
  | [] => ret []
  | a :: l' => let* b := f a in let* bs := mapM f l' in ret (b :: bs)
  end.

Definition get_environ : M (gmap string string) := fun w => (environ w, w).

(** [time.Now()]. *)
Definition time_Now : M Time := fun w => (clock w, w).

(** The fault the next system call meets, and the world once that call
    has taken its entry of the script. *)
Definition fault_now (w : World) : option Fault :=
  match faults w with
  | [] => None
  | f :: _ => f
  end.

Definition after_call (w : World) : World := set_faults (tail (faults w)) w.

Definition next_fault : M (option Fault) :=
  fun w => (fault_now w, after_call w).

(** The next [n] system calls meet no fault. *)
Fixpoint none_of (n : nat) (script : list (option Fault)) : bool :=
  match n, script with
  | O, _ => true
  | S _, [] => true
  | S n', None :: script' => none_of n' script'
  | S _, Some _ :: _ => false
  end.

Definition calls_succeed (n : nat) (w : World) : Prop :=
  none_of n (faults w) = true.

Definition emit (e : Event) : M unit := fun w => (tt, log e w).

(** ** Package [os] *)

(** [os.Stat(name)], its error only. *)
Definition os_Stat (name : string) : M (option OsError) :=
  let* f := next_fault in
  fun w =>
    let err :=
      match f with
      | Some flt => Some (ErrErrno (errno flt))
      | None => match files w !! name with
                | Some _ => None
                | None => Some ErrNotExist
                end
      end in
    (err, log (EvSys (Stat name) err) w).

(** [os.ReadFile(name)]. *)
Definition os_ReadFile (name : string) : M (OsError + string) :=
  let* f := next_fault in
  fun w =>
    let r :=
      match f with
      | Some flt => inl (ErrErrno (errno flt))
      | None => match files w !! name with
                | Some data => inr data
                | None => inl ErrNotExist
                end
      end in
    (r, log (EvSys (ReadFile name)
               (match r with inl e => Some e | inr _ => None end)) w).

(** [os.WriteFile(name, data, perm)]: creates or truncates [name]. *)
Definition os_WriteFile (name data : string) : M (option OsError) :=
  let* f := next_fault in
  fun w =>
    match f with
    | Some flt =>
        let err := Some (ErrErrno (errno flt)) in
        let w' := match partial flt with
                  | Some p => set_files (<[name := p]> (files w)) w
                  | None => w
                  end in
        (err, log (EvSys (WriteFile name data) err) w')
    | None =>
        (None, log (EvSys (WriteFile name data) None)
                   (set_files (<[name := data]> (files w)) w))
    end.

(** [os.Rename(oldpath, newpath)]: all or nothing. *)
Definition os_Rename (oldpath newpath : string) : M (option OsError) :=
  let* f := next_fault in
  fun w =>
    match f with
    | Some flt =>
        let err := Some (ErrErrno (errno flt)) in
        (err, log (EvSys (Rename oldpath newpath) err) w)
    | None =>
        match files w !! oldpath with
        | None =>
            (Some ErrNotExist,
             log (EvSys (Rename oldpath newpath) (Some ErrNotExist)) w)
        | Some data =>
            (None, log (EvSys (Rename oldpath newpath) None)
                       (set_files (<[newpath := data]>
                                     (delete oldpath (files w))) w))
        end
    end.

(** [os.MkdirAll(dir, perm)]; directories are not tracked. *)
Definition os_MkdirAll (dir : string) : M (option OsError) :=
  let* f := next_fault in
  fun w =>
    let err := match f with
               | Some flt => Some (ErrErrno (errno flt))
               | None => None
               end in
    (err, log (EvSys (MkdirAll dir) err) w).

(** [os.Getenv(key)]. *)
Definition os_Getenv (env : gmap string string) (key : string) : string :=
  default EmptyString (env !! key).

(** [os.UserHomeDir()] on Unix: [$HOME], an error when it is empty. *)
Definition os_UserHomeDir (env : gmap string string) : option string :=
  let v := os_Getenv env "HOME" in
  if String.eqb v "" then None else Some v.

(** ** What the sources at hand call but do not contain *)

(** [encoding/json] at type [StorageData] (a library, with [inl] for its
    error; a snapshot is a record of lists, so an instance array that
    holds a null is outside the model), and the parts of packages
    [session] and [tmux] that storage.go and main.go call. Modelled
    from the spec where it speaks: [extractGroupPath] synthesizes a group path from a project path;
    [detectStatus] is the single detector pass that [Instance.UpdateStatus]
    stores in the status field; [NewGroupTreeWithGroups] builds the tree
    from the instance list and the persisted groups; [CreateGroup] is the
    idempotent group creation; [NewInstance] and [NewInstanceWithGroup]
    allocate an instance that is not yet bound to an external session.
    [Map_unicode_ToLower] is [strings.Map(unicode.ToLower, s)] of the Go
    library, the rune-by-rune lowering with the Unicode tables that
    [strings.ToLower] falls back on for a string that is not all ASCII. *)
Class Externals : Type := {
  json_MarshalIndent : StorageData.t -> string + string;
  json_Unmarshal : string -> string + StorageData.t;
  extractGroupPath : string -> string;
  detectStatus : World -> Instance.t -> Status;
  NewGroupTreeWithGroups :
    list Instance.t -> list GroupData.t -> GroupTree.t;
  CreateGroup : GroupTree.t -> string -> GroupTree.t;
  NewInstance : World -> string -> string -> Instance.t;
  NewInstanceWithGroup : World -> string -> string -> string -> Instance.t;
  Map_unicode_ToLower : string -> string
}.

Definition set_Status (st : Status) (i : Instance.t) : Instance.t :=
  Instance.mk (Instance.ID i) (Instance.Title i) (Instance.ProjectPath i)
    (Instance.GroupPath i) (Instance.Command i) (Instance.Tool i)
    st (Instance.CreatedAt i) (Instance.tmuxSession i).

Definition set_Command_Tool (command tool : string) (i : Instance.t)
  : Instance.t :=
  Instance.mk (Instance.ID i) (Instance.Title i) (Instance.ProjectPath i)
    (Instance.GroupPath i) command tool
    (Instance.Status i) (Instance.CreatedAt i) (Instance.tmuxSession i).

(** Modelled from the spec: [Session.EnableMouseMode] is not in the
    sources at hand; it is an idempotent request to the host. *)
Definition tmux_EnableMouseMode (sess : tmux.Session) : M unit :=
  emit (EvEnableMouseMode (tmux.Name sess)).

(** Modelled from the spec: [Instance.UpdateStatus] is not in the sources
    at hand; one detector pass that mutates the status field only. *)
Definition Instance_UpdateStatus `{Externals} (inst : Instance.t)
  : M Instance.t :=
  fun w =>
    (set_Status (detectStatus w inst) inst,
     log (EvUpdateStatus
            (match Instance.tmuxSession inst with
             | Some sess => tmux.Name sess
             | None => EmptyString
             end)) w).

(** Modelled from the spec: [Instance.Exists] is not in the sources at
    hand; an instance exists on the host when it has a handle whose
    session is live there. *)
Definition Instance_Exists (inst : Instance.t) : M bool :=
  fun w =>
    (match Instance.tmuxSession inst with
     | Some sess => bool_decide (tmux.Name sess ∈ sessions w)
     | None => false
     end, w).

(** Modelled from the spec: [Instance.Kill] is not in the sources at
    hand; it requests termination of the bound session, and killing an
    absent session is a no-op. *)
Definition Instance_Kill (inst : Instance.t) : M unit :=
  match Instance.tmuxSession inst with
  | Some sess =>
      fun w => (tt, log (EvKill (tmux.Name sess))
                        (set_sessions (sessions w ∖ {[tmux.Name sess]}) w))
  | None => ret tt
  end.

(** ** internal/session/storage.go *)

(** The errors storage.go returns, by the message that wraps them. *)
Inductive Error : Type :=
| ErrHomeDir
| ErrCreateDir (e : OsError)
| ErrMarshal (msg : string)
| ErrWriteTemp (e : OsError)
| ErrFinalize (e : OsError)
| ErrReadFile (e : OsError)
| ErrUnmarshal (msg : string).

Definition expandTilde (env : gmap string string) (path : string) : string :=
  if strings.HasPrefix path "~/" then
    match os_UserHomeDir env with
    | Some home => filepath.Join [home; strings.drop 2 path]
    | None => path
    end
  else path.

Definition GetStoragePath (env : gmap string string) : Error + string :=
  match os_UserHomeDir env with
  | None => inl ErrHomeDir
  | Some homeDir =>
      inr (filepath.Join [homeDir; ".agent-deck"; "sessions.json"])
  end.

Definition NewStorage : M (Error + Storage) :=
  let* env := get_environ in
  match GetStoragePath env with
  | inl err => ret (inl err)
  | inr path =>
      let dir := filepath.Dir path in
      let* err := os_MkdirAll dir in
      match err with
      | Some e => ret (inl (ErrCreateDir e))
      | None => ret (inr (mkStorage path))
      end
  end.

(** The body of the first loop of [SaveWithGroups]. *)
Definition instanceData (inst : Instance.t) : InstanceData.t :=
  let tmuxName :=
    match Instance.tmuxSession inst with
    | Some sess => tmux.Name sess
    | None => EmptyString
    end in
  InstanceData.mk (Instance.ID inst) (Instance.Title inst)
    (Instance.ProjectPath inst) (Instance.GroupPath inst)
    (Instance.Command inst) (Instance.Tool inst) (Instance.Status inst)
    (Instance.CreatedAt inst) tmuxName.

(** The body of the second loop of [SaveWithGroups]. *)
Definition groupData (g : Group.t) : GroupData.t :=
  GroupData.mk (Group.Name g) (Group.Path g) (Group.Expanded g)
    (Group.Order g).

Definition copyFile (src dst : string) : M (option OsError) :=
  let* r := os_ReadFile src in
  match r with
  | inl err => ret (Some err)
  | inr data => os_WriteFile dst data
  end.

(** The snapshot [SaveWithGroups] marshals. *)
Definition storageData (instances : list Instance.t)
  (groupTree : option GroupTree.t) (now : Time) : StorageData.t :=
  StorageData.mk
    (map instanceData instances)
    (match groupTree with
     | Some tree => map groupData (GroupTree.GroupList tree)
     | None => []
     end)
    now.

Definition SaveWithGroups `{Externals} (s : Storage)
  (instances : list Instance.t) (groupTree : option GroupTree.t)
  : M (option Error) :=
  let* now := time_Now in
  let data := storageData instances groupTree now in
  match json_MarshalIndent data with
  | inl msg => ret (Some (ErrMarshal msg))
  | inr jsonData =>
      let tmpPath := path s +:+ ".tmp" in
      let bakPath := path s +:+ ".bak" in
      let* err := os_WriteFile tmpPath jsonData in
      match err with
      | Some e => ret (Some (ErrWriteTemp e))
      | None =>
          let* st := os_Stat (path s) in
          (match st with
           | None => let* _ := copyFile (path s) bakPath in ret tt
           | Some _ => ret tt
           end);;
          let* err := os_Rename tmpPath (path s) in
          match err with
          | Some e => ret (Some (ErrFinalize e))
          | None => ret None
          end
      end
  end.

Definition Save `{Externals} (s : Storage) (instances : list Instance.t)
  : M (option Error) :=
  SaveWithGroups s instances None.

Definition statusToString (s : Status) : string :=
  match s with
  | StatusRunning => "active"
  | StatusWaiting => "waiting"
  | StatusIdle => "idle"
  | StatusError => "waiting"
  | StatusOther _ => "waiting"
  end.

(** The body of the loop of [LoadWithGroups]. *)
Definition loadInstance `{Externals} (instData : InstanceData.t)
  : M Instance.t :=
  let* tmuxSess :=
    if negb (String.eqb (InstanceData.TmuxSession instData) "") then
      let previousStatus := statusToString (InstanceData.Status instData) in
      let sess := tmux.ReconnectSessionWithStatus
                    (InstanceData.TmuxSession instData)
                    (InstanceData.Title instData)
                    (InstanceData.ProjectPath instData)
                    (InstanceData.Command instData)
                    previousStatus in
      tmux_EnableMouseMode sess;; ret (Some sess)
    else ret None in
  let groupPath :=
    if String.eqb (InstanceData.GroupPath instData) ""
    then extractGroupPath (InstanceData.ProjectPath instData)
    else InstanceData.GroupPath instData in
  let* env := get_environ in
  let projectPath := expandTilde env (InstanceData.ProjectPath instData) in
  let inst :=
    Instance.mk (InstanceData.ID instData) (InstanceData.Title instData)
      projectPath groupPath (InstanceData.Command instData)
      (InstanceData.Tool instData) (InstanceData.Status instData)
      (InstanceData.CreatedAt instData) tmuxSess in
  match tmuxSess with
  | Some _ => Instance_UpdateStatus inst
  | None => ret inst
  end.

Definition LoadWithGroups `{Externals} (s : Storage)
  : M (Error + list Instance.t * list GroupData.t) :=
  let* st := os_Stat (path s) in
  if os_IsNotExist st then ret (inr ([], []))
  else
    let* r := os_ReadFile (path s) in
    match r with
    | inl err => ret (inl (ErrReadFile err))
    | inr jsonData =>
        match json_Unmarshal jsonData with
        | inl msg => ret (inl (ErrUnmarshal msg))
        | inr data =>
            let* instances := mapM loadInstance (StorageData.Instances data) in
            ret (inr (instances, StorageData.Groups data))
        end
    end.

Definition Load `{Externals} (s : Storage) : M (Error + list Instance.t) :=
  let* r := LoadWithGroups s in
  match r with
  | inl err => ret (inl err)
  | inr (instances, _) => ret (inr instances)
  end.

(** ** cmd/agent-deck/main.go: [detectTool] *)

(** [strings.ToLower(s)] with the Unicode lowering of the Go library. *)
Definition strings_ToLower `{Externals} (s : string) : string :=
  strings.ToLower Map_unicode_ToLower s.

Definition detectTool `{Externals} (cmd : string) : string :=
  let cmd := strings_ToLower cmd in
  if strings.Contains cmd "claude" then "claude"
  else if strings.Contains cmd "aider" then "aider"
  else if strings.Contains cmd "gemini" then "gemini"
  else if strings.Contains cmd "codex" then "codex"
  else if strings.Contains cmd "cursor" then "cursor"
  else "shell".

(** ** cmd/agent-deck/main.go: [handleAdd] and [handleRemove] *)

(** How [handleAdd] ends: the message it prints and whether it returns or
    leaves through [os.Exit]. *)
Inductive AddOutcome : Type :=
| AddStorageFailed (err : Error)
| AddLoadFailed (err : Error)
| AddAlreadyExists (inst : Instance.t)
| AddSaveFailed (err : Error)
| Added (newInstance : Instance.t).

(** The process exit status of each ending ([0] also when the function
    returns to [main]). *)
Definition AddOutcome_status (o : AddOutcome) : Z :=
  match o with
  | AddStorageFailed _ | AddLoadFailed _ | AddSaveFailed _ => 1
  | AddAlreadyExists _ | Added _ => 0
  end.

(** [handleAdd] from its line 140 on: [path] is the resolved, existing
    directory and [sessionTitle], [sessionGroup], [sessionCommand] are the
    merged flags (flag parsing and path resolution come before). *)
Definition handleAdd `{Externals}
  (path sessionTitle sessionGroup sessionCommand : string) : M AddOutcome :=
  let* r := NewStorage in
  match r with
  | inl err => ret (AddStorageFailed err)
  | inr storage =>
      let* r := LoadWithGroups storage in
      match r with
      | inl err => ret (AddLoadFailed err)
      | inr (instances, groups) =>
          match find (fun inst => String.eqb (Instance.ProjectPath inst) path)
                     instances with
          | Some inst => ret (AddAlreadyExists inst)
          | None =>
              let* newInstance :=
                (fun w =>
                   (if negb (String.eqb sessionGroup "")
                    then NewInstanceWithGroup w sessionTitle path sessionGroup
                    else NewInstance w sessionTitle path, w)) in
              let newInstance :=
                if negb (String.eqb sessionCommand "")
                then set_Command_Tool sessionCommand
                       (detectTool sessionCommand) newInstance
                else newInstance in
              let instances := instances ++ [newInstance] in
              let groupTree := NewGroupTreeWithGroups instances groups in
              let groupTree :=
                if negb (String.eqb (Instance.GroupPath newInstance) "")
                then CreateGroup groupTree (Instance.GroupPath newInstance)
                else groupTree in
              let* err := SaveWithGroups storage instances (Some groupTree) in
              match err with
              | Some e => ret (AddSaveFailed e)
              | None => ret (Added newInstance)
              end
          end
      end
  end.

(** How [handleRemove] ends. *)
Inductive RemoveOutcome : Type :=
| RemoveNoIdentifier
| RemoveStorageFailed (err : Error)
| RemoveLoadFailed (err : Error)
| RemoveNotFound
| RemoveSaveFailed (err : Error)
| Removed (removedTitle : string).

Definition RemoveOutcome_status (o : RemoveOutcome) : Z :=
  match o with
  | Removed _ => 0
  | _ => 1
  end.

(** The condition of the loop of [handleRemove]. *)
Definition matches (identifier : string) (inst : Instance.t) : bool :=
  String.eqb (Instance.ID inst) identifier
  || strings.HasPrefix (Instance.ID inst) identifier
  || String.eqb (Instance.Title inst) identifier.

(** The loop of [handleRemove], over [found], [removedTitle] and
    [newInstances]. *)
Fixpoint remove_loop (identifier : string) (instances : list Instance.t)
  (found : bool) (removedTitle : string) (newInstances : list Instance.t)
  : M (bool * string * list Instance.t) :=
  match instances with
  | [] => ret (found, removedTitle, newInstances)
  | inst :: rest =>
      if matches identifier inst then
        let* ex := Instance_Exists inst in
        (if ex then Instance_Kill inst else ret tt);;
        remove_loop identifier rest true (Instance.Title inst) newInstances
      else
        remove_loop identifier rest found removedTitle
                    (newInstances ++ [inst])
  end.

(** [handleRemove]; [identifier] is the first positional argument. *)
Definition handleRemove `{Externals} (identifier : string) : M RemoveOutcome :=
  if String.eqb identifier "" then ret RemoveNoIdentifier
  else
    let* r := NewStorage in
    match r with
    | inl err => ret (RemoveStorageFailed err)
    | inr storage =>
        let* r := LoadWithGroups storage in
        match r with
        | inl err => ret (RemoveLoadFailed err)
        | inr (instances, groups) =>
            let* looped :=
              remove_loop identifier instances false EmptyString [] in
            let '(found, removedTitle, newInstances) := looped in
            if negb found then ret RemoveNotFound
            else
              let groupTree := NewGroupTreeWithGroups newInstances groups in
              let* err :=
                SaveWithGroups storage newInstances (Some groupTree) in
              match err with
              | Some e => ret (RemoveSaveFailed e)
              | None => ret (Removed removedTitle)
              end
        end
    end.

(** ** cmd/agent-deck/main.go: [mergeFlags], [truncate] and [handleList] *)

Definition mergeFlags (long short : string) : string :=
  if negb (String.eqb long "") then long else short.

(** The first [n] bytes of [s]. *)
Fixpoint take_bytes (n : nat) (s : string) : string :=
  match n, s with
  | O, _ => EmptyString
  | S _, EmptyString => EmptyString
  | S n', String c s' => String c (take_bytes n' s')
  end.

(** The slice expression [s[:n]]: Go panics ([None]) when [n] is
    negative or past the end of [s]. *)
Definition slice_to (s : string) (n : Z) : option string :=
  if (0 <=? n)%Z && (n <=? Z.of_nat (String.length s))%Z
  then Some (take_bytes (Z.to_nat n) s)
  else None.

(** [truncate(s, max)]; [None] when a slice expression panics. *)
Definition truncate (s : string) (max : Z) : option string :=
  if (Z.of_nat (String.length s) <=? max)%Z then Some s
  else if (max <=? 3)%Z then slice_to s max
  else match slice_to s (max - 3) with
       | Some head => Some (head +:+ "...")
       | None => None
       end.

(** The local type [sessionJSON] of [handleList]. *)
Record sessionJSON : Type := mkSessionJSON {
  json_ID : string;
  json_Title : string;
  json_Path : string;
  json_Group : string;
  json_Tool : string;
  json_Command : string;
  json_CreatedAt : Time
}.

(** The four strings [handleList] formats into one line of its table. *)
Record Row : Type := mkRow {
  row_title : string;
  row_group : string;
  row_path : string;
  row_id : string
}.

(** One turn of the table loop of [handleList]: the three truncations,
    then the slice [inst.ID[:12]] among the arguments of [Printf];
    [None] when that turn panics, before it prints. *)
Definition table_row (inst : Instance.t) : option Row :=
  match truncate (Instance.Title inst) 20 with
  | None => None
  | Some title =>
      match truncate (Instance.GroupPath inst) 15 with
      | None => None
      | Some group =>
          match truncate (Instance.ProjectPath inst) 40 with
          | None => None
          | Some path =>
              match slice_to (Instance.ID inst) 12 with
              | None => None
              | Some id => Some (mkRow title group path id)
              end
          end
      end
  end.

(** The table loop of [handleList]: the rows printed, and whether the
    loop ran to its end ([false]: it panicked after these rows). *)
Fixpoint table_rows (instances : list Instance.t) : list Row * bool :=
  match instances with
  | [] => ([], true)
  | inst :: rest =>
      match table_row inst with
      | None => ([], false)
      | Some row => let (rows, finished) := table_rows rest in
                    (row :: rows, finished)
      end
  end.

(** How [handleList] ends: an error message and exit status 1, the line
    that says there are no sessions, the records handed to
    [json.MarshalIndent] and printed, the table with its total, or the
    rows printed before a runtime panic. *)
Inductive ListOutcome : Type :=
| ListStorageFailed (err : Error)
| ListLoadFailed (err : Error)
| ListEmpty
| ListJSON (sessions : list sessionJSON)
| ListTable (rows : list Row) (total : nat)
| ListPanicked (rows : list Row).

(** [handleList]; [jsonOutput] is the parsed [-json] flag. *)
Definition handleList `{Externals} (jsonOutput : bool) : M ListOutcome :=
  let* r := NewStorage in
  match r with
  | inl err => ret (ListStorageFailed err)
  | inr storage =>
      let* r := LoadWithGroups storage in
      match r with
      | inl err => ret (ListLoadFailed err)
      | inr (instances, _) =>
          if (length instances =? 0)%nat then ret ListEmpty
          else if jsonOutput then
            ret (ListJSON
                   (map (fun inst =>
                           mkSessionJSON (Instance.ID inst)
                             (Instance.Title inst) (Instance.ProjectPath inst)
                             (Instance.GroupPath inst) (Instance.Tool inst)
                             (Instance.Command inst) (Instance.CreatedAt inst))
                        instances))
          else
            let (rows, finished) := table_rows instances in
            if finished then ret (ListTable rows (length instances))
            else ret (ListPanicked rows)
      end
  end.

(** [filepath.Base(path)] on Unix: the last element of the path, trailing
    separators dropped; [.] for the empty path and the separator for a
    path of separators only. *)
Definition filepath_Base (path : string) : string :=
  if String.eqb path "" then "."
  else
    match last (List.filter (fun e => negb (String.eqb e ""))
                  (strings.split_on filepath.Separator EmptyString path)) with
    | Some elem => elem
    | None => "/"
    end.

(** The title [handleAdd] goes on with (its lines 130 to 138): the merged
    title flags, and the folder name when both are empty. *)
Definition addTitle (title titleShort path : string) : string :=
  let sessionTitle := mergeFlags title titleShort in
  if String.eqb sessionTitle "" then filepath_Base path else sessionTitle.

(** ** A sample environment

    Concrete stand-ins for [Externals], used to run the embedding on
    concrete snapshots: the snapshot file is printed and parsed as an
    S-expression, the status names are those of the persisted snapshot. *)

Module Sample.

Definition status_name (s : Status) : string :=
  match s with
  | StatusRunning => "running"
  | StatusWaiting => "waiting"
  | StatusIdle => "idle"
  | StatusError => "error"
  | StatusOther raw => raw
  end.

Definition status_of_name (n : string) : Status :=
  if String.eqb n "running" then StatusRunning
  else if String.eqb n "waiting" then StatusWaiting
  else if String.eqb n "idle" then StatusIdle
  else if String.eqb n "error" then StatusError
  else StatusOther n.

Definition wire_instance : Type :=
  (string * string * string * string * string)
  * (string * string * Z * string).

Definition wire_group : Type := string * string * bool * Z.

Definition wire : Type := list wire_instance * list wire_group * Z.

Definition wire_of_instance (d : InstanceData.t) : wire_instance :=
  ((InstanceData.ID d, InstanceData.Title d, InstanceData.ProjectPath d,
    InstanceData.GroupPath d, InstanceData.Command d),
   (InstanceData.Tool d, status_name (InstanceData.Status d),
    InstanceData.CreatedAt d, InstanceData.TmuxSession d)).

Definition instance_of_wire (x : wire_instance) : InstanceData.t :=
  let '((id, title, projectPath, groupPath, command),
        (tool, status, createdAt, tmuxSession)) := x in
  InstanceData.mk id title projectPath groupPath command tool
    (status_of_name status) createdAt tmuxSession.

Definition wire_of_group (g : GroupData.t) : wire_group :=
  (GroupData.Name g, GroupData.Path g, GroupData.Expanded g,
   GroupData.Order g).

Definition group_of_wire (x : wire_group) : GroupData.t :=
  let '(name, path, expanded, order) := x in
  GroupData.mk name path expanded order.

Definition encode (d : StorageData.t) : string :=
  to_string (map wire_of_instance (StorageData.Instances d),
             map wire_of_group (StorageData.Groups d),
             StorageData.UpdatedAt d).

Definition Marshal (d : StorageData.t) : string + string := inr (encode d).

Definition Unmarshal (data : string) : string + StorageData.t :=
  match (from_string data : CeresDeserialize.error + wire) with
  | inl _ => inl "invalid snapshot"
  | inr (instances, groups, updatedAt) =>
      inr (StorageData.mk (map instance_of_wire instances)
             (map group_of_wire groups) updatedAt)
  end.

(** The last directory name on the way to the project. *)
Definition parentSegment (projectPath : string) : string :=
  default "default"
    (last (removelast (strings.split_on "/" EmptyString projectPath))).

Definition liveStatus (w : World) (inst : Instance.t) : Status :=
  match Instance.tmuxSession inst with
  | Some sess =>
      if bool_decide (tmux.Name sess ∈ sessions w) then StatusIdle
      else StatusError
  | None => Instance.Status inst
  end.

Definition treeOf (instances : list Instance.t) (groups : list GroupData.t)
  : GroupTree.t :=
  GroupTree.mk
    (map (fun g => Group.mk (GroupData.Name g) (GroupData.Path g)
                     (GroupData.Expanded g) (GroupData.Order g)) groups).

Definition createGroup (tree : GroupTree.t) (p : string) : GroupTree.t :=
  if existsb (fun g => String.eqb (Group.Path g) p) (GroupTree.GroupList tree)
  then tree
  else GroupTree.mk
         (GroupTree.GroupList tree
          ++ [Group.mk p p true (Z.of_nat (length (GroupTree.GroupList tree)))]).

Definition newInstanceWithGroup (w : World) (title projectPath group : string)
  : Instance.t :=
  Instance.mk ("id-" +:+ title) title projectPath group EmptyString "shell"
    StatusIdle (clock w) None.

Definition newInstance (w : World) (title projectPath : string) : Instance.t :=
  newInstanceWithGroup w title projectPath (parentSegment projectPath).

(** The Unicode lowering on the runes met here: the two bytes 196 176,
    which encode U+0130 (capital I with dot above), become the one byte
    [i], as [unicode.ToLower] has it; the capitals [A]..[Z] become small;
    every other byte is kept. *)
Fixpoint lowerRunes (s : string) : string :=
  match s with
  | EmptyString => EmptyString
  | String c rest =>
      match rest with
      | String d rest' =>
          if (nat_of_ascii c =? 196)%nat && (nat_of_ascii d =? 176)%nat
          then String "i" (lowerRunes rest')
          else String (strings.lower_byte c) (lowerRunes rest)
      | EmptyString => String (strings.lower_byte c) EmptyString
      end
  end.

Definition externals : Externals := {|
  json_MarshalIndent := Marshal;
  json_Unmarshal := Unmarshal;
  extractGroupPath := parentSegment;
  detectStatus := liveStatus;
  NewGroupTreeWithGroups := treeOf;
  CreateGroup := createGroup;
  NewInstance := newInstance;
  NewInstanceWithGroup := newInstanceWithGroup;
  Map_unicode_ToLower := lowerRunes
|}.

(** A machine with a home directory and nothing stored yet. *)
Definition home_env : gmap string string := {[ "HOME" := "/home/op" ]}.

Definition storage : Storage :=
  mkStorage "/home/op/.agent-deck/sessions.json".

Definition world (fs : gmap string string) (flts : list (option Fault))
  : World :=
  mkWorld fs home_env 1700000000%Z ∅ flts [].

End Sample.

(** ** The words of the specification *)








(** What the backup step of a save does to the outside when the
    canonical file holds [old] ([None]: there is no such file): it looks
    the file up, and copies it to the backup path only when it is there. *)
Inductive backup_run (s : Storage) (old : option string)
  : list Event -> Prop :=
| backup_skipped (e : OsError) :
    backup_run s old [EvSys (Stat (path s)) (Some e)]
| backup_unread (data : string) (e : OsError) :
    old = Some data ->
    backup_run s old
      [EvSys (Stat (path s)) None; EvSys (ReadFile (path s)) (Some e)]
| backup_written (data : string) (r : option OsError) :
    old = Some data ->
    backup_run s old
      [EvSys (Stat (path s)) None; EvSys (ReadFile (path s)) None;
       EvSys (WriteFile (path s +:+ ".bak") data) r].

(** What a save does to the outside and what it returns: nothing when
    marshalling fails; else the temporary file is written first, then
    comes the backup step, then the rename, whose error, if any, is the
    only one returned once the temporary file is written. *)
Inductive save_run (s : Storage) (old : option string)
  (marshalled : string + string) : list Event -> option Error -> Prop :=
| save_not_marshalled (msg : string) :
    marshalled = inl msg ->
    save_run s old marshalled [] (Some (ErrMarshal msg))
| save_temp_failed (jsonData : string) (e : OsError) :
    marshalled = inr jsonData ->
    save_run s old marshalled
      [EvSys (WriteFile (path s +:+ ".tmp") jsonData) (Some e)]
      (Some (ErrWriteTemp e))
| save_renamed (jsonData : string) (backup : list Event)
    (r : option OsError) :
    marshalled = inr jsonData ->
    backup_run s old backup ->
    save_run s old marshalled
      (EvSys (WriteFile (path s +:+ ".tmp") jsonData) None
       :: backup ++ [EvSys (Rename (path s +:+ ".tmp") (path s)) r])
      (option_map ErrFinalize r).

(** The bound-session name of an instance, empty when it has none. *)
Definition sessionName (inst : Instance.t) : string :=
  match Instance.tmuxSession inst with
  | Some sess => tmux.Name sess
  | None => EmptyString
  end.

(** The instance the loop of [LoadWithGroups] builds from a persisted
    record, before its status is updated. *)
Definition restoredInstance `{Externals} (env : gmap string string)
  (d : InstanceData.t) : Instance.t :=
  Instance.mk (InstanceData.ID d) (InstanceData.Title d)
    (expandTilde env (InstanceData.ProjectPath d))
    (if String.eqb (InstanceData.GroupPath d) ""
     then extractGroupPath (InstanceData.ProjectPath d)
     else InstanceData.GroupPath d)
    (InstanceData.Command d) (InstanceData.Tool d) (InstanceData.Status d)
    (InstanceData.CreatedAt d)
    (if String.eqb (InstanceData.TmuxSession d) "" then None
     else Some (tmux.ReconnectSessionWithStatus
                  (InstanceData.TmuxSession d) (InstanceData.Title d)
                  (InstanceData.ProjectPath d) (InstanceData.Command d)
                  (statusToString (InstanceData.Status d)))).

(** [inst] is what a load makes of the persisted record [d]: the restored
    instance, with a status that is the persisted one unless the record
    names a bound session. *)
Definition loaded_from `{Externals} (env : gmap string string)
  (d : InstanceData.t) (inst : Instance.t) : Prop :=
  exists st : Status,
    inst = set_Status st (restoredInstance env d) /\
    (InstanceData.TmuxSession d = EmptyString -> st = InstanceData.Status d).

(** What loading after saving makes of an instance: every field is kept,
    but a project path goes through [expandTilde], an empty group path
    is synthesized from the project path, and the status is kept only
    when no session is bound. *)
Definition roundtrip_of `{Externals} (env : gmap string string)
  (inst inst' : Instance.t) : Prop :=
  Instance.ID inst' = Instance.ID inst /\
  Instance.Title inst' = Instance.Title inst /\
  Instance.Command inst' = Instance.Command inst /\
  Instance.Tool inst' = Instance.Tool inst /\
  Instance.CreatedAt inst' = Instance.CreatedAt inst /\
  sessionName inst' = sessionName inst /\
  Instance.ProjectPath inst' = expandTilde env (Instance.ProjectPath inst) /\
  Instance.GroupPath inst' =
    (if String.eqb (Instance.GroupPath inst) ""
     then extractGroupPath (Instance.ProjectPath inst)
     else Instance.GroupPath inst) /\
  (sessionName inst = EmptyString ->
   Instance.Status inst' = Instance.Status inst /\
   Instance.tmuxSession inst' = None).

(** An instance that loading leaves as it is: its project path does not
    start with a tilde and a slash, it has a group path, and no session
    is bound to it. *)
Definition plain (inst : Instance.t) : Prop :=
  strings.HasPrefix (Instance.ProjectPath inst) "~/" = false /\
  Instance.GroupPath inst <> EmptyString /\
  Instance.tmuxSession inst = None.

(** The prior status a load hands to the reconnect operation for the
    single record of a snapshot file. *)
Definition prior_status_passed `{Externals} (s : Storage) (w : World)
  : option string :=
  match fst (LoadWithGroups s w) with
  | inr ([inst], _) => tmux.PreviousStatus <$> Instance.tmuxSession inst
  | _ => None
  end.

(** What a system call leaves as it was: the environment, the clock and
    the sessions of the host; it takes one entry of the fault script. *)
Definition one_call (w w' : World) : Prop :=
  faults w' = tail (faults w) /\ environ w' = environ w /\
  clock w' = clock w /\ sessions w' = sessions w.

(** The events of the loop of [handleRemove] are the termination
    requests for the sessions, live when the loop starts, of the
    instances it removes. *)
Definition kills_of (identifier : string) (instances : list Instance.t)
  (live : gset string) (kills : list Event) : Prop :=
  forall ev,
    ev ∈ kills <->
    exists inst sess,
      inst ∈ List.filter (matches identifier) instances /\
      Instance.tmuxSession inst = Some sess /\
      tmux.Name sess ∈ live /\
      ev = EvKill (tmux.Name sess).

(** The instance [handleAdd] creates, in the world [w] it has after
    loading: made with the group when one is given, and with the command
    and the tool detected from it when a command is given. *)
Definition addedInstance `{Externals} (w : World)
  (projectPath sessionTitle sessionGroup sessionCommand : string)
  : Instance.t :=
  let newInstance :=
    if negb (String.eqb sessionGroup "")
    then NewInstanceWithGroup w sessionTitle projectPath sessionGroup
    else NewInstance w sessionTitle projectPath in
  if negb (String.eqb sessionCommand "")
  then set_Command_Tool sessionCommand (detectTool sessionCommand) newInstance
  else newInstance.

(** The group tree [handleAdd] saves: rebuilt from all the instances
    and the loaded groups, with the group of the new instance created in
    it when that instance has a group path. *)
Definition addedGroupTree `{Externals} (instances : list Instance.t)
  (groups : list GroupData.t) (newInstance : Instance.t) : GroupTree.t :=
  let groupTree := NewGroupTreeWithGroups instances groups in
  if negb (String.eqb (Instance.GroupPath newInstance) "")
  then CreateGroup groupTree (Instance.GroupPath newInstance)
  else groupTree.

(** The requests a load makes to the multiplexer host for one persisted
    record: none when the record names no session, else mouse mode and a
    status update for that session. *)
Definition reconnect_events (d : InstanceData.t) : list Event :=
  if String.eqb (InstanceData.TmuxSession d) "" then []
  else [EvEnableMouseMode (InstanceData.TmuxSession d);
        EvUpdateStatus (InstanceData.TmuxSession d)].

(** * Properties *)

(** ** The path and tool functions on sample inputs *)

Example Clean_dots : filepath.Clean "/home//op/./a/../b/" = "/home/op/b".
Proof. reflexivity. Qed.

Example Clean_up : filepath.Clean "a/../../b" = "../b".
Proof. reflexivity. Qed.

Example Clean_rootup : filepath.Clean "/../x" = "/x".
Proof. reflexivity. Qed.

Example Clean_empty : filepath.Clean "" = ".".
Proof. reflexivity. Qed.

Example Join_home :
  filepath.Join ["/home/op"; ".agent-deck"; "sessions.json"]
  = "/home/op/.agent-deck/sessions.json".
Proof. reflexivity. Qed.

Example Dir_sessions :
  filepath.Dir "/home/op/.agent-deck/sessions.json" = "/home/op/.agent-deck".
Proof. reflexivity. Qed.

Example detectTool_claude :
  @detectTool Sample.externals "npx Claude --resume" = "claude".
Proof. reflexivity. Qed.

Example detectTool_order :
  @detectTool Sample.externals "aider --model claude-3" = "claude".
Proof. reflexivity. Qed.

Example detectTool_shell :
  @detectTool Sample.externals "bash -l" = "shell".
Proof. reflexivity. Qed.

(** ** Byte strings *)

Lemma append_cons (c : ascii) (s t : string) :
  String c s +:+ t = String c (s +:+ t).
Proof. reflexivity. Qed.

Lemma append_nil_l (s : string) : EmptyString +:+ s = s.
Proof. reflexivity. Qed.

Lemma append_nil_r (s : string) : s +:+ EmptyString = s.
Proof.
  induction s as [|c s IH]; [reflexivity |].
  now rewrite append_cons, IH.
Qed.

Lemma append_assoc (a b c : string) : (a +:+ b) +:+ c = a +:+ (b +:+ c).
Proof.
  induction a as [|x a IH]; [reflexivity |].
  now rewrite !append_cons, IH.
Qed.

Lemma HasPrefix_spec (s prefix : string) :
  strings.HasPrefix s prefix = true <-> exists rest, s = prefix +:+ rest.
Proof.
  revert s. induction prefix as [|p prefix IH]; intros s; simpl.
  - split; [intros _; now exists s | intros _; now destruct s].
  - destruct s as [|c s].
    + split; [discriminate | intros [rest Hrest]; discriminate].
    + simpl. rewrite andb_true_iff, Ascii.eqb_eq, IH. split.
      * intros [-> [rest ->]]. now exists rest.
      * intros [rest Hrest]. rewrite append_cons in Hrest.
        injection Hrest as -> ->. split; [reflexivity | now exists rest].
Qed.









(** ** [detectTool] *)








(** ** [GetStoragePath] and [expandTilde] *)

Lemma os_UserHomeDir_insert (env : gmap string string) (key value : string) :
  key <> "HOME" ->
  os_UserHomeDir (<[key := value]> env) = os_UserHomeDir env.
Proof.
  intros Hkey. unfold os_UserHomeDir, os_Getenv.
  now rewrite lookup_insert_ne.
Qed.

(** C8, as the code has it: the storage path is the file sessions.json in
    the directory .agent-deck of the operator's home directory, whatever
    else the environment holds; setting any variable other than HOME, a
    profile selector included, leaves the computed path where it was. *)
Theorem GetStoragePath_ignores_selector
  (env : gmap string string) (selector value : string) :
  selector <> "HOME" ->
  GetStoragePath (<[selector := value]> env) = GetStoragePath env /\
  forall home, os_UserHomeDir env = Some home ->
    GetStoragePath (<[selector := value]> env)
    = inr (filepath.Join [home; ".agent-deck"; "sessions.json"]).
Proof.
  intros Hsel. unfold GetStoragePath.
  rewrite os_UserHomeDir_insert by assumption.
  split; [reflexivity |]. now intros home ->.
Qed.

Lemma GetStoragePath_ignores_selector_witness :
  GetStoragePath (<["AGENTDECK_PROFILE" := "test"]> Sample.home_env)
  = GetStoragePath Sample.home_env.
Proof.
  refine (proj1 (GetStoragePath_ignores_selector Sample.home_env
                   "AGENTDECK_PROFILE" "test" _)).
  discriminate.
Defined.

(** C8 as claimed fails: with a profile selector set in the environment
    the computed path is still the production path under the home
    directory. *)
Lemma GetStoragePath_selector_counterexample :
  let env := <["AGENTDECK_PROFILE" := "test"]> Sample.home_env in
  env !! "AGENTDECK_PROFILE" = Some "test" /\
  os_UserHomeDir env = Some "/home/op" /\
  GetStoragePath env = inr "/home/op/.agent-deck/sessions.json" /\
  GetStoragePath env = GetStoragePath Sample.home_env.
Proof. vm_compute. repeat split. Qed.

Lemma Clean_rooted (p : string) :
  filepath.IsAbs p = true -> filepath.IsAbs (filepath.Clean p) = true.
Proof.
  unfold filepath.IsAbs, filepath.Clean. intros ->.
  apply HasPrefix_spec. eexists. reflexivity.
Qed.

Lemma IsAbs_app (p q : string) :
  filepath.IsAbs p = true -> filepath.IsAbs (p +:+ q) = true.
Proof.
  unfold filepath.IsAbs. rewrite !HasPrefix_spec.
  intros [rest ->]. exists (rest +:+ q). now rewrite append_assoc.
Qed.

Lemma Join2_nonempty (home rest : string) :
  home <> EmptyString ->
  filepath.Join [home; rest] = filepath.Clean (home +:+ "/" +:+ rest).
Proof.
  intros Hhome. simpl.
  destruct (String.eqb_spec home ""); [contradiction | reflexivity].
Qed.

Lemma os_UserHomeDir_nonempty (env : gmap string string) (home : string) :
  os_UserHomeDir env = Some home -> home <> EmptyString.
Proof.
  unfold os_UserHomeDir.
  destruct (String.eqb_spec (os_Getenv env "HOME") ""); [discriminate |].
  now intros [= <-].
Qed.

(** What [expandTilde] returns, case by case. *)
Lemma expandTilde_cases (env : gmap string string) (p : string) :
  (strings.HasPrefix p "~/" = true ->
   forall home, os_UserHomeDir env = Some home ->
     expandTilde env p = filepath.Join [home; strings.drop 2 p] /\
     (filepath.IsAbs home = true ->
      filepath.IsAbs (expandTilde env p) = true)) /\
  (strings.HasPrefix p "~/" = false -> expandTilde env p = p) /\
  (os_UserHomeDir env = None -> expandTilde env p = p).
Proof.
  unfold expandTilde. split; [| split].
  - intros Hpre home Hhome. rewrite Hpre, Hhome. split; [reflexivity |].
    intros Habs.
    rewrite Join2_nonempty by (eapply os_UserHomeDir_nonempty; eassumption).
    apply Clean_rooted. now apply IsAbs_app.
  - now intros ->.
  - intros ->. now destruct (strings.HasPrefix p "~/").
Qed.

(** ** The world and the system calls *)

Lemma length_append (a b : string) :
  String.length (a +:+ b) = (String.length a + String.length b)%nat.
Proof.
  induction a as [|c a IH]; [reflexivity |].
  rewrite append_cons. simpl. now rewrite IH.
Qed.

Lemma append_suffix_neq (p suffix : string) :
  suffix <> EmptyString -> p +:+ suffix <> p.
Proof.
  intros Hs Heq. apply (f_equal String.length) in Heq.
  rewrite length_append in Heq.
  destruct suffix; [contradiction | simpl in Heq; lia].
Qed.

Lemma append_inj_l (p a b : string) : p +:+ a = p +:+ b -> a = b.
Proof.
  induction p as [|c p IH]; [trivial |].
  rewrite !append_cons. intros [= Heq]. auto.
Qed.

Lemma tmp_neq_path (p : string) : p +:+ ".tmp" <> p.
Proof. now apply append_suffix_neq. Qed.

Lemma bak_neq_path (p : string) : p +:+ ".bak" <> p.
Proof. now apply append_suffix_neq. Qed.

Lemma bak_neq_tmp (p : string) : p +:+ ".bak" <> p +:+ ".tmp".
Proof. intros Heq. apply append_inj_l in Heq. discriminate. Qed.


Lemma calls_succeed_now (n : nat) (w : World) :
  calls_succeed (S n) w -> fault_now w = None.
Proof.
  unfold calls_succeed, fault_now.
  destruct (faults w) as [|[flt|] rest]; simpl; congruence.
Qed.

Lemma calls_succeed_next (n : nat) (w w' : World) :
  calls_succeed (S n) w -> faults w' = tail (faults w) -> calls_succeed n w'.
Proof.
  unfold calls_succeed. intros Hn ->.
  destruct (faults w) as [|[flt|] rest]; simpl in *;
    [now destruct n | discriminate | assumption].
Qed.

Lemma calls_succeed_trace (n : nat) (w w' : World) :
  calls_succeed n w -> faults w' = faults w -> calls_succeed n w'.
Proof. unfold calls_succeed. now intros Hn ->. Qed.

Lemma os_Stat_inv (name : string) (w w' : World) (err : option OsError) :
  os_Stat name w = (err, w') ->
  trace w' = trace w ++ [EvSys (Stat name) err] /\
  files w' = files w /\ one_call w w' /\
  (err = None -> is_Some (files w !! name)) /\
  (fault_now w = None ->
   err = match files w !! name with
         | Some _ => None
         | None => Some ErrNotExist
         end).
Proof.
  unfold os_Stat, bind, next_fault. intros [= <- <-]. unfold one_call. cbn.
  repeat split.
  - destruct (fault_now w); [discriminate |].
    destruct (files w !! name); [eauto | discriminate].
  - now intros ->.
Qed.

Lemma os_ReadFile_inv (name : string) (w w' : World) (r : OsError + string) :
  os_ReadFile name w = (r, w') ->
  trace w' = trace w
             ++ [EvSys (ReadFile name)
                   (match r with inl e => Some e | inr _ => None end)] /\
  files w' = files w /\ one_call w w' /\
  (forall data, r = inr data -> files w !! name = Some data) /\
  (fault_now w = None ->
   r = match files w !! name with
       | Some data => inr data
       | None => inl ErrNotExist
       end).
Proof.
  unfold os_ReadFile, bind, next_fault. intros [= <- <-]. unfold one_call. cbn.
  repeat split.
  - intros data. destruct (fault_now w); [discriminate |].
    destruct (files w !! name); congruence.
  - now intros ->.
Qed.

Lemma os_WriteFile_inv (name data : string) (w w' : World)
  (err : option OsError) :
  os_WriteFile name data w = (err, w') ->
  trace w' = trace w ++ [EvSys (WriteFile name data) err] /\
  one_call w w' /\
  (forall p, p <> name -> files w' !! p = files w !! p) /\
  (err = None -> files w' = <[name := data]> (files w)) /\
  (fault_now w = None -> err = None).
Proof.
  unfold os_WriteFile, bind, next_fault, one_call.
  destruct (fault_now w) as [flt|]; intros [= <- <-].
  - destruct (partial flt); cbn; repeat split; try discriminate.
    + intros p Hp. now apply lookup_insert_ne.
  - cbn. repeat split. intros p Hp. now apply lookup_insert_ne.
Qed.

Lemma os_Rename_inv (oldpath newpath : string) (w w' : World)
  (err : option OsError) :
  os_Rename oldpath newpath w = (err, w') ->
  trace w' = trace w ++ [EvSys (Rename oldpath newpath) err] /\
  one_call w w' /\
  (err <> None -> files w' = files w) /\
  (err = None ->
   exists data, files w !! oldpath = Some data /\
     files w' = <[newpath := data]> (delete oldpath (files w))) /\
  (fault_now w = None -> is_Some (files w !! oldpath) -> err = None).
Proof.
  unfold os_Rename, bind, next_fault, one_call.
  destruct (fault_now w) as [flt|].
  - intros [= <- <-]. cbn. repeat split; discriminate.
  - cbn. destruct (files w !! oldpath) as [data|] eqn:Hold; intros [= <- <-]; cbn.
    + repeat split; [congruence | eauto].
    + repeat split; try discriminate. intros _ [x Hx]. discriminate.
Qed.

Lemma os_MkdirAll_inv (dir : string) (w w' : World) (err : option OsError) :
  os_MkdirAll dir w = (err, w') ->
  trace w' = trace w ++ [EvSys (MkdirAll dir) err] /\
  files w' = files w /\ one_call w w' /\
  (fault_now w = None -> err = None).
Proof.
  unfold os_MkdirAll, bind, next_fault, one_call. intros [= <- <-]. cbn.
  repeat split. now intros ->.
Qed.

Lemma copyFile_inv (src dst : string) (w w' : World) (err : option OsError) :
  copyFile src dst w = (err, w') ->
  (forall p, p <> dst -> files w' !! p = files w !! p) /\
  environ w' = environ w /\ clock w' = clock w /\ sessions w' = sessions w /\
  ((exists e, trace w' = trace w ++ [EvSys (ReadFile src) (Some e)] /\
              faults w' = tail (faults w) /\ files w' = files w) \/
   (exists data, files w !! src = Some data /\
      trace w' = trace w ++ [EvSys (ReadFile src) None;
                             EvSys (WriteFile dst data) err] /\
      faults w' = tail (tail (faults w)) /\
      (err = None -> files w' = <[dst := data]> (files w)))).
Proof.
  unfold copyFile, bind.
  destruct (os_ReadFile src w) as [r w1] eqn:Hread.
  apply os_ReadFile_inv in Hread as (Ht1 & Hf1 & (Hfa1 & He1 & Hc1 & Hs1) & Hd1 & _).
  destruct r as [e | data].
  - intros [= <- <-]. repeat split; try congruence.
    left. exists e. auto.
  - intros Hwrite.
    apply os_WriteFile_inv in Hwrite as (Ht2 & (Hfa2 & He2 & Hc2 & Hs2) & Hfr2 & Hok2 & _).
    repeat split; try congruence.
    + intros p Hp. rewrite Hfr2 by assumption. now rewrite Hf1.
    + right. exists data. repeat split.
      * now apply Hd1.
      * rewrite Ht2, Ht1, <- app_assoc. reflexivity.
      * now rewrite Hfa2, Hfa1.
      * intros Herr. rewrite Hok2 by assumption. now rewrite Hf1.
Qed.

(** ** Saving *)

Lemma backup_run_no_rename (s : Storage) (old : option string)
  (backup : list Event) (a b : string) (r : option OsError) :
  backup_run s old backup -> EvSys (Rename a b) r ∉ backup.
Proof.
  intros Hrun Hin. destruct Hrun;
    repeat (apply elem_of_cons in Hin as [Hin | Hin]; [discriminate |]);
    now apply elem_of_nil in Hin.
Qed.

(** C2: a save writes the serialized snapshot to the temporary path
    first, then copies the canonical file to the backup path, which it
    does only if that file exists, then renames the temporary path onto
    the canonical path; the rename's error is the only one returned
    after the temporary file is written, so a failed backup copy never
    makes the save fail; and when the save returns an error the
    canonical file holds what it held before the call. *)
Theorem SaveWithGroups_atomic `{Externals} (s : Storage)
  (instances : list Instance.t) (groupTree : option GroupTree.t) (w : World) :
  let old := files w !! path s in
  let marshalled :=
    json_MarshalIndent (storageData instances groupTree (clock w)) in
  let res := fst (SaveWithGroups s instances groupTree w) in
  let w' := snd (SaveWithGroups s instances groupTree w) in
  (exists new,
     trace w' = trace w ++ new /\ save_run s old marshalled new res /\
     (res = None <->
      EvSys (Rename (path s +:+ ".tmp") (path s)) None ∈ new)) /\
  (res <> None -> files w' !! path s = old) /\
  (res = None ->
   exists jsonData, marshalled = inr jsonData /\
                    files w' !! path s = Some jsonData).
Proof.
  pose proof (tmp_neq_path (path s)) as Htmp.
  pose proof (bak_neq_path (path s)) as Hbak.
  cbv zeta. unfold SaveWithGroups, bind, time_Now.
  destruct (json_MarshalIndent _) as [msg | jsonData] eqn:Hm.
  { cbn. split; [| split]; [| reflexivity | discriminate].
    exists []. rewrite app_nil_r. split; [reflexivity |]. split.
    - now apply save_not_marshalled.
    - split; [discriminate | intros Hin; now apply elem_of_nil in Hin]. }
  destruct (os_WriteFile _ jsonData w) as [e1 w1] eqn:Hwrite.
  apply os_WriteFile_inv in Hwrite as (Ht1 & _ & Hfr1 & Hok1 & _).
  destruct e1 as [e1|].
  { cbn. split; [| split]; [| intros _; now apply Hfr1 | discriminate].
    eexists. split; [exact Ht1 |]. split.
    - now apply save_temp_failed.
    - split; [discriminate |].
      intros Hin. apply list_elem_of_singleton in Hin. discriminate. }
  specialize (Hok1 eq_refl).
  assert (Hcanon1 : files w1 !! path s = files w !! path s) by now apply Hfr1.
  (* the rename, once the backup step has left the world [w2] *)
  assert (Hfinish : forall (w2 : World) (backup : list Event),
    trace w2 = trace w1 ++ backup ->
    backup_run s (files w !! path s) backup ->
    files w2 !! path s = files w !! path s ->
    files w2 !! (path s +:+ ".tmp") = Some jsonData ->
    forall r, r = (let (a0, w3) := os_Rename (path s +:+ ".tmp") (path s) w2 in
                   match a0 with
                   | Some e => ret (Some (ErrFinalize e))
                   | None => ret None
                   end w3) ->
    (exists new,
       trace r.2 = trace w ++ new /\
       save_run s (files w !! path s) (inr jsonData) new r.1 /\
       (r.1 = None <->
        EvSys (Rename (path s +:+ ".tmp") (path s)) None ∈ new)) /\
    (r.1 <> None -> files r.2 !! path s = files w !! path s) /\
    (r.1 = None ->
     exists jsonData0, @inr string string jsonData = inr jsonData0 /\
                       files r.2 !! path s = Some jsonData0)).
  { intros w2 backup Ht2 Hrun Hcanon2 Htmp2 r ->.
    destruct (os_Rename _ _ w2) as [e4 w4] eqn:Hren.
    apply os_Rename_inv in Hren as (Ht4 & _ & Hfail4 & Hok4 & _).
    assert (Hshape : save_run s (files w !! path s) (inr jsonData)
              (EvSys (WriteFile (path s +:+ ".tmp") jsonData) None
               :: backup ++ [EvSys (Rename (path s +:+ ".tmp") (path s)) e4])
              (option_map ErrFinalize e4))
      by now apply save_renamed.
    assert (Htrace : trace w4 = trace w ++
              EvSys (WriteFile (path s +:+ ".tmp") jsonData) None
              :: backup ++ [EvSys (Rename (path s +:+ ".tmp") (path s)) e4]).
    { rewrite Ht4, Ht2, Ht1, <- !app_assoc. reflexivity. }
    destruct e4 as [e4|]; cbn.
    - split; [| split]; [| | discriminate].
      + eexists. split; [exact Htrace |]. split; [exact Hshape |].
        split; [discriminate |]. intros Hin.
        apply elem_of_cons in Hin as [Hin | Hin]; [discriminate |].
        apply elem_of_app in Hin as [Hin | Hin].
        * destruct (backup_run_no_rename _ _ _ _ _ _ Hrun Hin).
        * apply list_elem_of_singleton in Hin. discriminate.
      + intros _. rewrite Hfail4 by discriminate. exact Hcanon2.
    - split; [| split]; [| intros Hne; now contradiction Hne |].
      + eexists. split; [exact Htrace |]. split; [exact Hshape |].
        split; [intros _ | reflexivity].
        apply elem_of_cons. right. apply elem_of_app. right.
        now apply list_elem_of_singleton.
      + intros _. exists jsonData. split; [reflexivity |].
        destruct (Hok4 eq_refl) as (data & Hdata & ->).
        rewrite lookup_insert_eq. congruence. }
  (* the backup step *)
  destruct (os_Stat (path s) w1) as [st w1'] eqn:Hstat.
  apply os_Stat_inv in Hstat as (Ht & Hf & _ & Hsome & _).
  destruct st as [e|].
  - apply (Hfinish w1' [EvSys (Stat (path s)) (Some e)]); trivial.
    + apply backup_skipped.
    + now rewrite Hf.
    + rewrite Hf, Hok1. apply lookup_insert_eq.
  - destruct (copyFile (path s) (path s +:+ ".bak") w1') as [e3 w3] eqn:Hcopy.
    apply copyFile_inv in Hcopy as (Hfr3 & _ & _ & _ & Hcases).
    assert (Hcanon3 : files w3 !! path s = files w !! path s).
    { rewrite Hfr3 by (intros Heq; symmetry in Heq; contradiction).
      now rewrite Hf. }
    assert (Htmp3 : files w3 !! (path s +:+ ".tmp") = Some jsonData).
    { rewrite Hfr3 by (apply not_eq_sym, bak_neq_tmp).
      rewrite Hf, Hok1. apply lookup_insert_eq. }
    destruct Hcases as [(e & Ht3 & _ & _) | (data & Hdata & Ht3 & _ & _)].
    + destruct (Hsome eq_refl) as [data Hdata].
      eapply (Hfinish w3); [| | exact Hcanon3 | exact Htmp3 | reflexivity].
      * rewrite Ht3, Ht, <- app_assoc. reflexivity.
      * apply backup_unread with data. congruence.
    + eapply (Hfinish w3); [| | exact Hcanon3 | exact Htmp3 | reflexivity].
      * rewrite Ht3, Ht, <- app_assoc. reflexivity.
      * apply backup_written. congruence.
Qed.

(** ** Loading *)

Lemma loadInstance_inv `{Externals} (d : InstanceData.t) (w w' : World)
  (inst : Instance.t) :
  loadInstance d w = (inst, w') ->
  loaded_from (environ w) d inst /\
  files w' = files w /\ faults w' = faults w /\ environ w' = environ w /\
  clock w' = clock w /\ sessions w' = sessions w /\
  exists evs, trace w' = trace w ++ evs /\
              forall call err, EvSys call err ∉ evs.
Proof.
  unfold loadInstance, loaded_from, restoredInstance, bind, ret, get_environ,
    tmux_EnableMouseMode, emit, Instance_UpdateStatus.
  destruct (String.eqb (InstanceData.TmuxSession d) "") eqn:Hname; cbn.
  - intros [= <- <-]. split.
    + eexists. split; [reflexivity | reflexivity].
    + repeat split. exists []. rewrite app_nil_r. split; [reflexivity |].
      intros call err Hin. now apply elem_of_nil in Hin.
  - intros [= <- <-]. cbn. split.
    + eexists. split; [reflexivity |].
      intros Hempty. rewrite Hempty in Hname. discriminate.
    + repeat split. eexists. rewrite <- app_assoc. split; [reflexivity |].
      intros call err Hin.
      repeat (apply elem_of_cons in Hin as [Hin | Hin]; [discriminate |]).
      now apply elem_of_nil in Hin.
Qed.

Lemma mapM_loadInstance_inv `{Externals} (ds : list InstanceData.t)
  (w w' : World) (instances : list Instance.t) :
  mapM loadInstance ds w = (instances, w') ->
  Forall2 (loaded_from (environ w)) ds instances /\
  files w' = files w /\ faults w' = faults w /\ environ w' = environ w /\
  clock w' = clock w /\ sessions w' = sessions w /\
  exists evs, trace w' = trace w ++ evs /\
              forall call err, EvSys call err ∉ evs.
Proof.
  revert w w' instances. induction ds as [|d ds IH]; intros w w' instances.
  - intros [= <- <-]. repeat split; [constructor |].
    exists []. rewrite app_nil_r. split; [reflexivity |].
    intros call err Hin. now apply elem_of_nil in Hin.
  - cbn [mapM]. unfold bind at 1.
    destruct (loadInstance d w) as [inst w1] eqn:Hd.
    apply loadInstance_inv in Hd
      as (Hfrom & Hf1 & Hfa1 & He1 & Hc1 & Hs1 & evs1 & Ht1 & Hsys1).
    unfold bind at 1.
    destruct (mapM loadInstance ds w1) as [insts w2] eqn:Hds.
    apply IH in Hds
      as (Hall & Hf2 & Hfa2 & He2 & Hc2 & Hs2 & evs2 & Ht2 & Hsys2).
    intros [= <- <-]. rewrite He1 in Hall.
    repeat split; try congruence.
    + now constructor.
    + exists (evs1 ++ evs2). rewrite Ht2, Ht1, <- app_assoc.
      split; [reflexivity |]. intros call err Hin.
      apply elem_of_app in Hin as [Hin | Hin];
        [eapply Hsys1 | eapply Hsys2]; eassumption.
Qed.

(** [LoadWithGroups] reads and never writes: whatever happens, the files
    are what they were and the only path it touches is the canonical
    one, first with [os.Stat] and then, if at all, with [os.ReadFile]. *)
Lemma LoadWithGroups_reads_only `{Externals} (s : Storage) (w : World) :
  let w' := snd (LoadWithGroups s w) in
  files w' = files w /\ environ w' = environ w /\ clock w' = clock w /\
  sessions w' = sessions w /\
  exists evs, trace w' = trace w ++ evs /\
    forall call err, EvSys call err ∈ evs ->
      call = Stat (path s) \/ call = ReadFile (path s).
Proof.
  cbv zeta. unfold LoadWithGroups, bind.
  destruct (os_Stat (path s) w) as [st w1] eqn:Hstat.
  apply os_Stat_inv in Hstat as (Ht1 & Hf1 & (_ & He1 & Hc1 & Hs1) & _ & _).
  destruct (os_IsNotExist st).
  { cbn. repeat split; try assumption. eexists. split; [exact Ht1 |].
    intros call err Hin. apply list_elem_of_singleton in Hin.
    left. congruence. }
  destruct (os_ReadFile (path s) w1) as [r w2] eqn:Hread.
  apply os_ReadFile_inv in Hread as (Ht2 & Hf2 & (_ & He2 & Hc2 & Hs2) & _ & _).
  assert (Hsys : forall call err,
             EvSys call err ∈
               [EvSys (Stat (path s)) st;
                EvSys (ReadFile (path s))
                  (match r with inl e => Some e | inr _ => None end)] ->
             call = Stat (path s) \/ call = ReadFile (path s)).
  { intros call err Hin.
    apply elem_of_cons in Hin as [Hin | Hin]; [left; congruence |].
    apply list_elem_of_singleton in Hin. right. congruence. }
  destruct r as [e | jsonData].
  { cbn. repeat split; try congruence. eexists.
    split; [rewrite Ht2, Ht1, <- app_assoc; reflexivity | exact Hsys]. }
  destruct (json_Unmarshal jsonData) as [msg | data].
  { cbn. repeat split; try congruence. eexists.
    split; [rewrite Ht2, Ht1, <- app_assoc; reflexivity | exact Hsys]. }
  destruct (mapM loadInstance (StorageData.Instances data) w2)
    as [instances w3] eqn:Hloop.
  apply mapM_loadInstance_inv in Hloop
    as (_ & Hf3 & _ & He3 & Hc3 & Hs3 & evs & Ht3 & Hnosys).
  cbn. repeat split; try congruence.
  eexists. split; [rewrite Ht3, Ht2, Ht1, <- !app_assoc; reflexivity |].
  intros call err Hin. rewrite app_assoc in Hin.
  apply elem_of_app in Hin as [Hin | Hin]; [now apply (Hsys call err) |].
  now apply Hnosys in Hin.
Qed.

(** C3: loading when the canonical snapshot file does not exist returns
    an empty instance list and no groups, with no error, whatever the
    storage path. *)
Theorem LoadWithGroups_missing_file `{Externals} (s : Storage) (w : World) :
  files w !! path s = None ->
  calls_succeed 1 w ->
  exists w',
    LoadWithGroups s w = (inr ([], []), w') /\
    files w' = files w /\
    trace w' = trace w ++ [EvSys (Stat (path s)) (Some ErrNotExist)].
Proof.
  intros Hmissing Hcalls. apply calls_succeed_now in Hcalls.
  unfold LoadWithGroups, bind.
  destruct (os_Stat (path s) w) as [st w1] eqn:Hstat.
  apply os_Stat_inv in Hstat as (Ht1 & Hf1 & _ & _ & Hst).
  rewrite (Hst Hcalls), Hmissing in *. cbn.
  exists w1. auto.
Qed.

Lemma LoadWithGroups_missing_file_witness :
  exists w',
    @LoadWithGroups Sample.externals Sample.storage (Sample.world ∅ [])
    = (inr ([], []), w') /\
    files w' = files (Sample.world ∅ []) /\
    trace w' = trace (Sample.world ∅ [])
               ++ [EvSys (Stat (path Sample.storage)) (Some ErrNotExist)].
Proof.
  apply (@LoadWithGroups_missing_file Sample.externals Sample.storage
           (Sample.world ∅ [])); reflexivity.
Defined.

(** C4: loading a canonical file that is there but does not parse
    returns the parse error to the caller; the only calls made are the
    lookup and the read of the canonical file, so the backup file is
    neither read nor put in its place, and no file is changed. *)
Theorem LoadWithGroups_unparsable `{Externals} (s : Storage) (w : World)
  (jsonData msg : string) :
  files w !! path s = Some jsonData ->
  json_Unmarshal jsonData = inl msg ->
  calls_succeed 2 w ->
  exists w',
    LoadWithGroups s w = (inl (ErrUnmarshal msg), w') /\
    files w' = files w /\
    trace w' = trace w ++ [EvSys (Stat (path s)) None;
                           EvSys (ReadFile (path s)) None].
Proof.
  intros Hfile Hparse Hcalls.
  unfold LoadWithGroups, bind.
  destruct (os_Stat (path s) w) as [st w1] eqn:Hstat.
  apply os_Stat_inv in Hstat as (Ht1 & Hf1 & (Hfa1 & _) & _ & Hst).
  specialize (Hst (calls_succeed_now _ _ Hcalls)).
  rewrite Hfile in Hst. subst st. cbn [os_IsNotExist].
  pose proof (calls_succeed_next _ _ _ Hcalls Hfa1) as Hcalls1.
  destruct (os_ReadFile (path s) w1) as [r w2] eqn:Hread.
  apply os_ReadFile_inv in Hread as (Ht2 & Hf2 & _ & _ & Hr).
  specialize (Hr (calls_succeed_now _ _ Hcalls1)).
  rewrite Hf1, Hfile in Hr. subst r.
  rewrite Hparse. cbn. exists w2. repeat split; [congruence |].
  rewrite Ht2, Ht1, <- app_assoc. reflexivity.
Qed.

Lemma LoadWithGroups_unparsable_witness :
  let fs : gmap string string :=
    {[ "/home/op/.agent-deck/sessions.json" := "{ not a snapshot";
       "/home/op/.agent-deck/sessions.json.bak" := "(() () 7)" ]} in
  exists w',
    @LoadWithGroups Sample.externals Sample.storage (Sample.world fs [])
    = (inl (ErrUnmarshal "invalid snapshot"), w') /\
    files w' = fs /\
    trace w' = [EvSys (Stat "/home/op/.agent-deck/sessions.json") None;
                EvSys (ReadFile "/home/op/.agent-deck/sessions.json") None].
Proof.
  intros fs.
  apply (@LoadWithGroups_unparsable Sample.externals Sample.storage
           (Sample.world fs []) "{ not a snapshot" "invalid snapshot").
  - reflexivity.
  - vm_compute. reflexivity.
  - reflexivity.
Defined.

(** A canonical file that parses is turned, record by record, into the
    instances the loop restores. *)
Lemma LoadWithGroups_parsed `{Externals} (s : Storage) (w : World)
  (jsonData : string) (data : StorageData.t) :
  files w !! path s = Some jsonData ->
  json_Unmarshal jsonData = inr data ->
  calls_succeed 2 w ->
  exists instances w',
    LoadWithGroups s w = (inr (instances, StorageData.Groups data), w') /\
    Forall2 (loaded_from (environ w)) (StorageData.Instances data) instances /\
    files w' = files w /\ faults w' = tail (tail (faults w)).
Proof.
  intros Hfile Hparse Hcalls.
  unfold LoadWithGroups, bind.
  destruct (os_Stat (path s) w) as [st w1] eqn:Hstat.
  apply os_Stat_inv in Hstat as (Ht1 & Hf1 & (Hfa1 & He1 & _) & _ & Hst).
  specialize (Hst (calls_succeed_now _ _ Hcalls)).
  rewrite Hfile in Hst. subst st. cbn [os_IsNotExist].
  pose proof (calls_succeed_next _ _ _ Hcalls Hfa1) as Hcalls1.
  destruct (os_ReadFile (path s) w1) as [r w2] eqn:Hread.
  apply os_ReadFile_inv in Hread as (Ht2 & Hf2 & (Hfa2 & He2 & _) & _ & Hr).
  specialize (Hr (calls_succeed_now _ _ Hcalls1)).
  rewrite Hf1, Hfile in Hr. subst r.
  rewrite Hparse.
  destruct (mapM loadInstance (StorageData.Instances data) w2)
    as [instances w3] eqn:Hloop.
  apply mapM_loadInstance_inv in Hloop as (Hall & Hf3 & Hfa3 & _).
  rewrite He2, He1 in Hall.
  cbn. exists instances, w3. repeat split; [assumption | congruence ..].
Qed.

(** C9, as the code has it: for every persisted instance whose project
    path begins with a tilde and a slash, a load replaces the path, when
    the home directory is known, by the cleaned join of the home
    directory and what follows the slash, an absolute path when the home
    directory is absolute; every other path, one that begins with a
    tilde alone included, is returned unchanged, and so is every path
    when the home directory is unknown. *)
Theorem LoadWithGroups_expands_tilde `{Externals} (s : Storage) (w : World)
  (jsonData : string) (data : StorageData.t) :
  files w !! path s = Some jsonData ->
  json_Unmarshal jsonData = inr data ->
  calls_succeed 2 w ->
  exists instances w',
    LoadWithGroups s w = (inr (instances, StorageData.Groups data), w') /\
    Forall2
      (fun d inst =>
         let p := InstanceData.ProjectPath d in
         (strings.HasPrefix p "~/" = true ->
          forall home, os_UserHomeDir (environ w) = Some home ->
            Instance.ProjectPath inst = filepath.Join [home; strings.drop 2 p] /\
            (filepath.IsAbs home = true ->
             filepath.IsAbs (Instance.ProjectPath inst) = true)) /\
         (strings.HasPrefix p "~/" = false -> Instance.ProjectPath inst = p) /\
         (os_UserHomeDir (environ w) = None -> Instance.ProjectPath inst = p))
      (StorageData.Instances data) instances.
Proof.
  intros Hfile Hparse Hcalls.
  destruct (LoadWithGroups_parsed s w jsonData data Hfile Hparse Hcalls)
    as (instances & w' & Hload & Hall & _).
  exists instances, w'. split; [exact Hload |].
  eapply Forall2_impl; [exact Hall |].
  intros d inst (st & -> & _). cbn.
  apply expandTilde_cases.
Qed.

Lemma LoadWithGroups_expands_tilde_witness :
  let d := InstanceData.mk "abc1" "web" "~/proj" "work" "claude" "claude"
             StatusIdle 5%Z "" in
  let w := Sample.world
             {[ "/home/op/.agent-deck/sessions.json"
                := Sample.encode (StorageData.mk [d] [] 7%Z) ]} [] in
  exists instances w',
    @LoadWithGroups Sample.externals Sample.storage w
    = (inr (instances, []), w') /\
    Forall2
      (fun d inst =>
         let p := InstanceData.ProjectPath d in
         (strings.HasPrefix p "~/" = true ->
          forall home, os_UserHomeDir (environ w) = Some home ->
            Instance.ProjectPath inst = filepath.Join [home; strings.drop 2 p] /\
            (filepath.IsAbs home = true ->
             filepath.IsAbs (Instance.ProjectPath inst) = true)) /\
         (strings.HasPrefix p "~/" = false -> Instance.ProjectPath inst = p) /\
         (os_UserHomeDir (environ w) = None -> Instance.ProjectPath inst = p))
      [d] instances.
Proof.
  intros d w.
  apply (@LoadWithGroups_expands_tilde Sample.externals Sample.storage w
           (Sample.encode (StorageData.mk [d] [] 7%Z))
           (StorageData.mk [d] [] 7%Z)).
  - reflexivity.
  - vm_compute. reflexivity.
  - reflexivity.
Defined.

(** C9 as claimed fails: a persisted project path that begins with a
    tilde, but not with a tilde and a slash, comes back from a load as
    it was, which is not an absolute path. *)
Lemma LoadWithGroups_tilde_counterexample :
  let d := InstanceData.mk "abc1" "web" "~proj" "work" "claude" "claude"
             StatusIdle 5%Z "" in
  let w := Sample.world
             {[ "/home/op/.agent-deck/sessions.json"
                := Sample.encode (StorageData.mk [d] [] 7%Z) ]} [] in
  strings.HasPrefix (InstanceData.ProjectPath d) "~" = true /\
  os_UserHomeDir (environ w) = Some "/home/op" /\
  fst (@LoadWithGroups Sample.externals Sample.storage w)
  = inr ([Instance.mk "abc1" "web" "~proj" "work" "claude" "claude"
            StatusIdle 5%Z None], []) /\
  filepath.IsAbs "~proj" = false.
Proof. vm_compute. repeat split. Qed.

(** ** The prior status handed to the reconnect operation *)

(** C7, as the code has it: for every persisted instance whose bound
    session name is not empty, a load hands to the reconnect operation
    the prior status [statusToString] makes of the persisted status:
    active for Running, waiting for Waiting, idle for Idle, which tells
    these three apart, and waiting again for Error and for any status
    that is none of the four. *)
Theorem LoadWithGroups_prior_status `{Externals} (s : Storage) (w : World)
  (jsonData : string) (data : StorageData.t) :
  files w !! path s = Some jsonData ->
  json_Unmarshal jsonData = inr data ->
  calls_succeed 2 w ->
  exists instances w',
    LoadWithGroups s w = (inr (instances, StorageData.Groups data), w') /\
    Forall2
      (fun d inst =>
         InstanceData.TmuxSession d <> EmptyString ->
         Instance.tmuxSession inst =
           Some (tmux.ReconnectSessionWithStatus
                   (InstanceData.TmuxSession d) (InstanceData.Title d)
                   (InstanceData.ProjectPath d) (InstanceData.Command d)
                   (statusToString (InstanceData.Status d))) /\
         (tmux.PreviousStatus <$> Instance.tmuxSession inst =
            Some "waiting" <->
          InstanceData.Status d <> StatusRunning /\
          InstanceData.Status d <> StatusIdle) /\
         (tmux.PreviousStatus <$> Instance.tmuxSession inst =
            Some "active" <-> InstanceData.Status d = StatusRunning) /\
         (tmux.PreviousStatus <$> Instance.tmuxSession inst =
            Some "idle" <-> InstanceData.Status d = StatusIdle))
      (StorageData.Instances data) instances.
Proof.
  intros Hfile Hparse Hcalls.
  destruct (LoadWithGroups_parsed s w jsonData data Hfile Hparse Hcalls)
    as (instances & w' & Hload & Hall & _).
  exists instances, w'. split; [exact Hload |].
  eapply Forall2_impl; [exact Hall |].
  intros d inst (st & -> & _) Hname. cbn.
  destruct (String.eqb_spec (InstanceData.TmuxSession d) "") as [| _];
    [contradiction |].
  split; [reflexivity |]. cbn.
  destruct (InstanceData.Status d); cbn;
    repeat split; try discriminate; try congruence;
    intros; try discriminate; intuition congruence.
Qed.

(** C7 as claimed fails: a persisted Error status reaches the reconnect
    operation as the prior status waiting, the same as a persisted
    Waiting status does, so the status before the restart is not handed
    over unchanged. *)
Lemma prior_status_counterexample :
  let record st :=
    InstanceData.mk "abc2" "api" "/srv/api" "srv" "" "shell" st 6%Z
      "agentdeck_api" in
  let w st :=
    Sample.world
      {[ "/home/op/.agent-deck/sessions.json"
         := Sample.encode (StorageData.mk [record st] [] 7%Z) ]} [] in
  @prior_status_passed Sample.externals Sample.storage (w StatusError)
  = Some "waiting" /\
  @prior_status_passed Sample.externals Sample.storage (w StatusWaiting)
  = Some "waiting" /\
  StatusError <> StatusWaiting.
Proof. vm_compute. repeat split. discriminate. Qed.

Lemma LoadWithGroups_prior_status_witness :
  let d := InstanceData.mk "abc2" "api" "/srv/api" "srv" "" "shell"
             StatusRunning 6%Z "agentdeck_api" in
  let w := Sample.world
             {[ "/home/op/.agent-deck/sessions.json"
                := Sample.encode (StorageData.mk [d] [] 7%Z) ]} [] in
  exists instances w',
    @LoadWithGroups Sample.externals Sample.storage w
    = (inr (instances, []), w') /\
    Forall2
      (fun d inst =>
         InstanceData.TmuxSession d <> EmptyString ->
         Instance.tmuxSession inst =
           Some (tmux.ReconnectSessionWithStatus
                   (InstanceData.TmuxSession d) (InstanceData.Title d)
                   (InstanceData.ProjectPath d) (InstanceData.Command d)
                   (statusToString (InstanceData.Status d))) /\
         (tmux.PreviousStatus <$> Instance.tmuxSession inst =
            Some "waiting" <->
          InstanceData.Status d <> StatusRunning /\
          InstanceData.Status d <> StatusIdle) /\
         (tmux.PreviousStatus <$> Instance.tmuxSession inst =
            Some "active" <-> InstanceData.Status d = StatusRunning) /\
         (tmux.PreviousStatus <$> Instance.tmuxSession inst =
            Some "idle" <-> InstanceData.Status d = StatusIdle))
      [d] instances.
Proof.
  intros d w.
  apply (@LoadWithGroups_prior_status Sample.externals Sample.storage w
           (Sample.encode (StorageData.mk [d] [] 7%Z))
           (StorageData.mk [d] [] 7%Z)).
  - reflexivity.
  - vm_compute. reflexivity.
  - reflexivity.
Defined.

(** ** Loading after saving *)

Lemma calls_succeed_fewer (n : nat) (w : World) :
  calls_succeed (S n) w -> calls_succeed n w.
Proof.
  unfold calls_succeed. generalize (faults w) as script.
  induction n as [|n IH]; intros script; [reflexivity |].
  destruct script as [|[flt|] rest]; simpl; auto; discriminate.
Qed.

(** When no call fails a save succeeds and leaves the serialized
    snapshot in the canonical file. *)
Lemma SaveWithGroups_succeeds `{Externals} (s : Storage)
  (instances : list Instance.t) (groupTree : option GroupTree.t) (w : World)
  (jsonData : string) (n : nat) :
  json_MarshalIndent (storageData instances groupTree (clock w))
  = inr jsonData ->
  calls_succeed (5 + n) w ->
  exists w1,
    SaveWithGroups s instances groupTree w = (None, w1) /\
    files w1 !! path s = Some jsonData /\
    environ w1 = environ w /\
    calls_succeed n w1.
Proof.
  intros Hm Hcalls. change (calls_succeed (S (S (S (S (S n))))) w) in Hcalls.
  unfold SaveWithGroups, bind, time_Now. rewrite Hm.
  destruct (os_WriteFile _ jsonData w) as [e1 w1] eqn:Hwrite.
  apply os_WriteFile_inv in Hwrite as (_ & (Hfa1 & He1 & _) & _ & Hok1 & Hnf1).
  specialize (Hnf1 (calls_succeed_now _ _ Hcalls)). subst e1.
  specialize (Hok1 eq_refl).
  pose proof (calls_succeed_next _ _ _ Hcalls Hfa1) as Hcalls1.
  destruct (os_Stat (path s) w1) as [st w2] eqn:Hstat.
  apply os_Stat_inv in Hstat as (_ & Hf2 & (Hfa2 & He2 & _) & _ & _).
  pose proof (calls_succeed_next _ _ _ Hcalls1 Hfa2) as Hcalls2.
  assert (Hfinish : forall w3,
    files w3 !! (path s +:+ ".tmp") = Some jsonData ->
    environ w3 = environ w ->
    calls_succeed (S n) w3 ->
    exists w5,
      (let (a0, w4) := os_Rename (path s +:+ ".tmp") (path s) w3 in
       match a0 with
       | Some e => ret (Some (ErrFinalize e))
       | None => ret None
       end w4) = (None, w5) /\
      files w5 !! path s = Some jsonData /\
      environ w5 = environ w /\ calls_succeed n w5).
  { intros w3 Htmp3 He3 Hcalls3.
    destruct (os_Rename _ _ w3) as [e4 w4] eqn:Hren.
    apply os_Rename_inv in Hren as (_ & (Hfa4 & He4 & _) & _ & Hok4 & Hnf4).
    assert (e4 = None) as ->
      by (apply Hnf4; [eapply calls_succeed_now; eassumption | eauto]).
    destruct (Hok4 eq_refl) as (data & Hdata & Hfiles4).
    cbn. exists w4. repeat split.
    - rewrite Hfiles4, lookup_insert_eq. congruence.
    - congruence.
    - eapply calls_succeed_next; eassumption. }
  destruct st as [e|].
  - apply Hfinish.
    + rewrite Hf2, Hok1. apply lookup_insert_eq.
    + congruence.
    + now do 2 apply calls_succeed_fewer.
  - destruct (copyFile (path s) (path s +:+ ".bak") w2) as [e3 w3] eqn:Hcopy.
    apply copyFile_inv in Hcopy as (Hfr3 & He3 & _ & _ & Hcases).
    apply Hfinish.
    + rewrite Hfr3 by (apply not_eq_sym, bak_neq_tmp).
      rewrite Hf2, Hok1. apply lookup_insert_eq.
    + congruence.
    + destruct Hcases as [(e & _ & Hfa3 & _) | (data & _ & _ & Hfa3 & _)].
      * apply calls_succeed_fewer.
        eapply calls_succeed_next; eassumption.
      * unfold calls_succeed in *. rewrite Hfa3.
        destruct (faults w2) as [|[flt|] [|[flt'|] rest]]; simpl in *;
          try reflexivity; try discriminate; assumption.
Qed.

Lemma sessionName_instanceData (inst : Instance.t) :
  InstanceData.TmuxSession (instanceData inst) = sessionName inst.
Proof. reflexivity. Qed.

Lemma loaded_roundtrip `{Externals} (env : gmap string string)
  (inst inst' : Instance.t) :
  loaded_from env (instanceData inst) inst' ->
  roundtrip_of env inst inst' /\ (plain inst -> inst' = inst).
Proof.
  intros (st & -> & Hst). rewrite sessionName_instanceData in Hst.
  unfold roundtrip_of, plain, restoredInstance, sessionName in *. cbn.
  fold (sessionName inst).
  destruct (String.eqb_spec (sessionName inst) "") as [Hempty | Hbound].
  - specialize (Hst Hempty). subst st. repeat split; try reflexivity.
    + now rewrite Hempty.
    + intros (Hpath & Hgroup & Hsess).
      unfold expandTilde. rewrite Hpath.
      destruct (String.eqb_spec (Instance.GroupPath inst) "");
        [contradiction |].
      destruct inst; cbn in *. now subst.
  - repeat split; try reflexivity; try contradiction.
    intros (_ & _ & Hsess). unfold sessionName in Hbound.
    rewrite Hsess in Hbound. contradiction.
Qed.

(** C1, as the code has it: when no call fails and the snapshot
    survives marshalling and unmarshalling, loading after saving yields
    the instances in the same order with the same id, title, command,
    tool, creation timestamp and bound-session name, and the same group
    records in the same order; the project path comes back expanded when
    it begins with a tilde and a slash, an empty group path comes back
    synthesized from the project path, and the status comes back as it
    was for an instance with no bound session. An instance with a
    project path that needs no expansion, a group path and no bound
    session comes back equal to what was saved. *)
Theorem save_load_roundtrip `{Externals} (s : Storage)
  (instances : list Instance.t) (groupTree : option GroupTree.t) (w : World)
  (jsonData : string) :
  let data := storageData instances groupTree (clock w) in
  json_MarshalIndent data = inr jsonData ->
  json_Unmarshal jsonData = inr data ->
  calls_succeed 7 w ->
  exists w1 loaded w2,
    SaveWithGroups s instances groupTree w = (None, w1) /\
    LoadWithGroups s w1 = (inr (loaded, StorageData.Groups data), w2) /\
    Forall2 (roundtrip_of (environ w)) instances loaded /\
    (Forall plain instances -> loaded = instances).
Proof.
  intros data Hm Hu Hcalls.
  destruct (SaveWithGroups_succeeds s instances groupTree w jsonData 2 Hm Hcalls)
    as (w1 & Hsave & Hfile & Henv & Hcalls1).
  destruct (LoadWithGroups_parsed s w1 jsonData data Hfile Hu Hcalls1)
    as (loaded & w2 & Hload & Hall & _).
  exists w1, loaded, w2. split; [exact Hsave |]. split; [exact Hload |].
  rewrite Henv in Hall. subst data. cbn [StorageData.Instances storageData] in Hall.
  change (map instanceData instances) with (instanceData <$> instances) in Hall.
  rewrite Forall2_fmap_l in Hall.
  split.
  - eapply Forall2_impl; [exact Hall |].
    intros inst inst' Hfrom. now apply loaded_roundtrip.
  - clear Hsave Hload Hm Hu.
    induction Hall as [|inst inst' l l' Hfrom Hall IH]; intros Hplain;
      [reflexivity |].
    apply Forall_cons in Hplain as [Hp Hplain].
    f_equal; [now apply (loaded_roundtrip _ _ _ Hfrom) | now apply IH].
Qed.

Lemma save_load_roundtrip_witness :
  let instances :=
    [Instance.mk "abc1" "web" "/srv/web" "work" "claude" "claude"
       StatusRunning 5%Z None;
     Instance.mk "abc2" "api" "~/api" "" "" "shell" StatusError 6%Z
       (Some (tmux.mkSession "agentdeck_api" "api" "/srv/api" "" "waiting"))] in
  let tree := GroupTree.mk [Group.mk "work" "work" true 0%Z] in
  let w := Sample.world ∅ [] in
  exists w1 loaded w2,
    @SaveWithGroups Sample.externals Sample.storage instances (Some tree) w
    = (None, w1) /\
    @LoadWithGroups Sample.externals Sample.storage w1
    = (inr (loaded, [GroupData.mk "work" "work" true 0%Z]), w2) /\
    Forall2 (@roundtrip_of Sample.externals (environ w)) instances loaded /\
    (Forall plain instances -> loaded = instances).
Proof.
  intros instances tree w.
  apply (@save_load_roundtrip Sample.externals Sample.storage instances
           (Some tree) w
           (Sample.encode (storageData instances (Some tree) (clock w)))).
  - reflexivity.
  - vm_compute. reflexivity.
  - reflexivity.
Defined.

(** C1 as claimed fails: an instance saved with a project path that
    begins with a tilde and a slash is loaded with another project
    path. *)
Lemma save_load_counterexample :
  let inst := Instance.mk "abc1" "web" "~/proj" "work" "claude" "claude"
                StatusRunning 5%Z None in
  let tree := GroupTree.mk [Group.mk "work" "work" true 0%Z] in
  let saved :=
    @SaveWithGroups Sample.externals Sample.storage [inst] (Some tree)
      (Sample.world ∅ []) in
  fst saved = None /\
  fst (@LoadWithGroups Sample.externals Sample.storage (snd saved))
  = inr ([Instance.mk "abc1" "web" "/home/op/proj" "work" "claude" "claude"
            StatusRunning 5%Z None],
         [GroupData.mk "work" "work" true 0%Z]) /\
  Instance.ProjectPath inst <> "/home/op/proj".
Proof. vm_compute. repeat split. discriminate. Qed.

(** ** Adding and removing from the command line *)

Lemma NewStorage_inv (w w1 : World) (storage : Storage) :
  NewStorage w = (inr storage, w1) ->
  files w1 = files w /\ environ w1 = environ w /\
  GetStoragePath (environ w) = inr (path storage).
Proof.
  unfold NewStorage, bind, get_environ.
  destruct (GetStoragePath (environ w)) as [err | p]; [discriminate |].
  destruct (os_MkdirAll (filepath.Dir p) w) as [err w'] eqn:Hmk.
  apply os_MkdirAll_inv in Hmk as (_ & Hf & (_ & He & _) & _).
  destruct err; intros [= <- <-]. auto.
Qed.

Lemma find_ProjectPath (p : string) (instances : list Instance.t)
  (inst : Instance.t) :
  inst ∈ instances -> Instance.ProjectPath inst = p ->
  exists found,
    find (fun i => String.eqb (Instance.ProjectPath i) p) instances
    = Some found /\
    found ∈ instances /\ Instance.ProjectPath found = p.
Proof.
  intros Hin Hpath. induction instances as [|i rest IH].
  - now apply elem_of_nil in Hin.
  - simpl. destruct (String.eqb_spec (Instance.ProjectPath i) p) as [Hi | Hi].
    + exists i. repeat split; [apply list_elem_of_here | assumption].
    + apply elem_of_cons in Hin as [-> | Hin]; [contradiction |].
      destruct (IH Hin) as (found & Hfind & Hfound & Hp).
      exists found. repeat split; [assumption | | assumption].
      now apply list_elem_of_further.
Qed.

(** C6: adding fails whenever an instance with that exact project path
    is already in the loaded list: no new instance comes back (the
    existing one is reported) and no file is changed, so the persisted
    instance list is what it was. *)
Theorem handleAdd_existing_path `{Externals}
  (projectPath sessionTitle sessionGroup sessionCommand : string)
  (w w1 w2 : World) (storage : Storage) (instances : list Instance.t)
  (groups : list GroupData.t) (inst : Instance.t) :
  NewStorage w = (inr storage, w1) ->
  LoadWithGroups storage w1 = (inr (instances, groups), w2) ->
  inst ∈ instances ->
  Instance.ProjectPath inst = projectPath ->
  exists found,
    handleAdd projectPath sessionTitle sessionGroup sessionCommand w
    = (AddAlreadyExists found, w2) /\
    found ∈ instances /\
    Instance.ProjectPath found = projectPath /\
    files w2 = files w.
Proof.
  intros Hstorage Hload Hin Hpath.
  destruct (find_ProjectPath projectPath instances inst Hin Hpath)
    as (found & Hfind & Hfound & Hp).
  exists found. unfold handleAdd, bind.
  rewrite Hstorage, Hload, Hfind. repeat split; try assumption.
  apply NewStorage_inv in Hstorage as (Hf1 & _).
  pose proof (LoadWithGroups_reads_only storage w1) as Hreads.
  cbv zeta in Hreads. rewrite Hload in Hreads. cbn in Hreads.
  destruct Hreads as (Hf2 & _). congruence.
Qed.

Lemma handleAdd_existing_path_witness :
  let inst := Instance.mk "abc1" "web" "/srv/web" "work" "claude" "claude"
                StatusRunning 5%Z None in
  let w := Sample.world
             {[ "/home/op/.agent-deck/sessions.json"
                := Sample.encode (storageData [inst] None 7%Z) ]} [] in
  exists found,
    @handleAdd Sample.externals "/srv/web" "site" "" "aider" w
    = (AddAlreadyExists found,
       snd (@LoadWithGroups Sample.externals Sample.storage
              (snd (NewStorage w)))) /\
    found ∈ [inst] /\
    Instance.ProjectPath found = "/srv/web" /\
    files (snd (@LoadWithGroups Sample.externals Sample.storage
                  (snd (NewStorage w)))) = files w.
Proof.
  intros inst w.
  apply (@handleAdd_existing_path Sample.externals
           "/srv/web" "site" "" "aider" w (snd (NewStorage w))
           (snd (@LoadWithGroups Sample.externals Sample.storage
                   (snd (NewStorage w))))
           Sample.storage [inst] [] inst).
  - vm_compute. reflexivity.
  - vm_compute. reflexivity.
  - apply list_elem_of_here.
  - reflexivity.
Defined.

Lemma last_cons_default {A B : Type} (f : A -> B) (b : B) (x : A)
  (l : list A) :
  default b (f <$> last (x :: l)) = default (f x) (f <$> last l).
Proof.
  revert b x. induction l as [|y l IH]; intros b x; [reflexivity |].
  change (last (x :: y :: l)) with (last (y :: l)).
  now rewrite (IH b y), (IH (f x) y).
Qed.


Lemma remove_loop_inv (identifier : string) (instances : list Instance.t) :
  forall (found : bool) (removedTitle : string)
         (newInstances : list Instance.t) (w : World),
  exists w3 kills,
    remove_loop identifier instances found removedTitle newInstances w
    = ((found || existsb (matches identifier) instances,
        default removedTitle
          (Instance.Title <$> last (List.filter (matches identifier) instances)),
        newInstances
        ++ List.filter (fun i => negb (matches identifier i)) instances),
       w3) /\
    files w3 = files w /\ faults w3 = faults w /\
    environ w3 = environ w /\ clock w3 = clock w /\
    trace w3 = trace w ++ kills /\
    kills_of identifier instances (sessions w) kills.
Proof.
  unfold kills_of.
  induction instances as [|inst rest IH]; intros found title acc w.
  - exists w, []. cbn. rewrite orb_false_r, !app_nil_r.
    repeat split; try reflexivity.
    + intros Hin. now apply elem_of_nil in Hin.
    + intros (i & sess & Hin & _). now apply elem_of_nil in Hin.
  - cbn [remove_loop existsb List.filter].
    destruct (matches identifier inst) eqn:Hmatch; cbn [negb].
    + rewrite last_cons_default, orb_true_r.
      unfold bind at 1. unfold Instance_Exists at 1.
      destruct (Instance.tmuxSession inst) as [sess|] eqn:Hsess.
      * destruct (bool_decide (tmux.Name sess ∈ sessions w)) eqn:Hlive.
        -- apply bool_decide_eq_true in Hlive.
           unfold bind at 1. unfold Instance_Kill at 1. rewrite Hsess.
           set (w' := log (EvKill (tmux.Name sess))
                        (set_sessions (sessions w ∖ {[tmux.Name sess]}) w)).
           destruct (IH true (Instance.Title inst) acc w')
             as (w3 & kills & Hloop & Hf & Hfa & He & Hc & Ht & Hk).
           exists w3, (EvKill (tmux.Name sess) :: kills).
           rewrite Hloop. cbn [orb].
           repeat split; try assumption.
           ++ rewrite Ht. cbn. now rewrite <- app_assoc.
           ++ intros Hin. apply elem_of_cons in Hin as [-> | Hin].
              ** exists inst, sess. repeat split; try assumption.
                 apply list_elem_of_here.
              ** apply Hk in Hin as (i & s' & Hi & Hs' & Hl & ->).
                 exists i, s'. repeat split; try assumption.
                 --- now apply list_elem_of_further.
                 --- cbn in Hl. now apply elem_of_difference in Hl as [Hl _].
           ++ intros (i & s' & Hi & Hs' & Hl & ->).
              destruct (decide (tmux.Name s' = tmux.Name sess)) as [-> | Hne].
              ** apply list_elem_of_here.
              ** apply list_elem_of_further. apply Hk.
                 apply elem_of_cons in Hi as [-> | Hi].
                 --- congruence.
                 --- exists i, s'. repeat split; try assumption.
                     cbn. apply elem_of_difference.
                     split; [assumption | now rewrite elem_of_singleton].
        -- apply bool_decide_eq_false in Hlive.
           unfold bind at 1. cbn [ret].
           destruct (IH true (Instance.Title inst) acc w)
             as (w3 & kills & Hloop & Hf & Hfa & He & Hc & Ht & Hk).
           exists w3, kills. rewrite Hloop. cbn [orb].
           repeat split; try assumption.
           ++ intros Hin. apply Hk in Hin as (i & s' & Hi & Hs' & Hl & ->).
              exists i, s'. repeat split; try assumption.
              now apply list_elem_of_further.
           ++ intros (i & s' & Hi & Hs' & Hl & ->). apply Hk.
              apply elem_of_cons in Hi as [-> | Hi]; [congruence |].
              exists i, s'. repeat split; assumption.
      * unfold bind at 1. cbn [ret].
        destruct (IH true (Instance.Title inst) acc w)
          as (w3 & kills & Hloop & Hf & Hfa & He & Hc & Ht & Hk).
        exists w3, kills. rewrite Hloop. cbn [orb].
        repeat split; try assumption.
        -- intros Hin. apply Hk in Hin as (i & s' & Hi & Hs' & Hl & ->).
           exists i, s'. repeat split; try assumption.
           now apply list_elem_of_further.
        -- intros (i & s' & Hi & Hs' & Hl & ->). apply Hk.
           apply elem_of_cons in Hi as [-> | Hi]; [congruence |].
           exists i, s'. repeat split; assumption.
    + destruct (IH found title (acc ++ [inst]) w)
        as (w3 & kills & Hloop & Hf & Hfa & He & Hc & Ht & Hk).
      exists w3, kills. rewrite Hloop, <- app_assoc. cbn [orb app].
      split; [reflexivity |]. repeat (split; [assumption |]). exact Hk.
Qed.

Lemma existsb_filter {A : Type} (f : A -> bool) (l : list A) :
  existsb f l = match List.filter f l with [] => false | _ :: _ => true end.
Proof.
  induction l as [|x l IH]; [reflexivity |].
  simpl. destruct (f x); [reflexivity | exact IH].
Qed.

(** What the condition of the loop of [handleRemove] tests. *)
Lemma matches_spec (identifier : string) (inst : Instance.t) :
  matches identifier inst = true <->
  Instance.ID inst = identifier \/
  (exists rest, Instance.ID inst = identifier +:+ rest) \/
  Instance.Title inst = identifier.
Proof.
  unfold matches.
  rewrite !orb_true_iff, !String.eqb_eq, HasPrefix_spec. tauto.
Qed.

(** X19: the loop of [handleRemove], for every identifier and every
    loaded list: it takes out every instance whose id is the identifier,
    whose id begins with the identifier, or whose title is the
    identifier, requests termination of the bound session of each of
    them whose session is live, and saves the instances that do not
    match, in their order, naming the last instance taken out in its
    message; when none matches it reports that the session was not found
    and saves nothing. *)
Theorem handleRemove_removes_every_match `{Externals} (identifier : string)
  (w w1 w2 : World) (storage : Storage) (instances : list Instance.t)
  (groups : list GroupData.t) :
  identifier <> EmptyString ->
  NewStorage w = (inr storage, w1) ->
  LoadWithGroups storage w1 = (inr (instances, groups), w2) ->
  let gone := List.filter (matches identifier) instances in
  let kept := List.filter (fun inst => negb (matches identifier inst))
                instances in
  (forall inst,
     inst ∈ gone <->
     inst ∈ instances /\
     (Instance.ID inst = identifier \/
      (exists rest, Instance.ID inst = identifier +:+ rest) \/
      Instance.Title inst = identifier)) /\
  (forall inst,
     inst ∈ kept <-> inst ∈ instances /\ matches identifier inst = false) /\
  exists w3 kills,
    files w3 = files w2 /\ faults w3 = faults w2 /\
    environ w3 = environ w2 /\ clock w3 = clock w2 /\
    trace w3 = trace w2 ++ kills /\
    kills_of identifier instances (sessions w2) kills /\
    handleRemove identifier w =
      match gone with
      | [] => (RemoveNotFound, w3)
      | _ :: _ =>
          let (err, w4) :=
            SaveWithGroups storage kept
              (Some (NewGroupTreeWithGroups kept groups)) w3 in
          (match err with
           | Some e => RemoveSaveFailed e
           | None =>
               Removed (default EmptyString (Instance.Title <$> last gone))
           end, w4)
      end.
Proof.
  intros Hid Hstorage Hload gone kept. split; [| split].
  - intros inst. subst gone.
    rewrite !list_elem_of_In, filter_In, matches_spec. reflexivity.
  - intros inst. subst kept.
    rewrite !list_elem_of_In, filter_In, negb_true_iff. reflexivity.
  - destruct (remove_loop_inv identifier instances false EmptyString [] w2)
      as (w3 & kills & Hloop & Hf & Hfa & He & Hc & Ht & Hk).
    exists w3, kills. repeat (split; [assumption |]).
    unfold handleRemove.
    destruct (String.eqb_spec identifier ""); [contradiction |].
    unfold bind at 1. rewrite Hstorage.
    unfold bind at 1. rewrite Hload.
    unfold bind at 1. rewrite Hloop.
    cbn [orb app]. rewrite existsb_filter. fold gone. fold kept.
    destruct gone as [|g gone']; [reflexivity |].
    cbn [negb]. unfold bind.
    destruct (SaveWithGroups storage kept _ w3) as [[e|] w4]; reflexivity.
Qed.

Lemma handleRemove_removes_every_match_witness :
  let api := Instance.mk "abc2" "api" "/srv/api" "srv" "" "shell"
               StatusIdle 6%Z
               (Some (tmux.mkSession "agentdeck_api" "api" "/srv/api" ""
                        "idle")) in
  let instances :=
    [Instance.mk "abc1" "web" "/srv/web" "work" "claude" "claude"
       StatusRunning 5%Z None;
     api;
     Instance.mk "xyz9" "docs" "/srv/docs" "work" "" "shell"
       StatusIdle 7%Z None] in
  let w := mkWorld
             {[ "/home/op/.agent-deck/sessions.json"
                := Sample.encode (storageData instances None 7%Z) ]}
             Sample.home_env 1700000000%Z {[ "agentdeck_api" ]} [] [] in
  let w2 := snd (@LoadWithGroups Sample.externals Sample.storage
                   (snd (NewStorage w))) in
  exists w3 kills,
    files w3 = files w2 /\ faults w3 = faults w2 /\
    environ w3 = environ w2 /\ clock w3 = clock w2 /\
    trace w3 = trace w2 ++ kills /\
    kills_of "abc" instances (sessions w2) kills /\
    @handleRemove Sample.externals "abc" w =
      let kept := [Instance.mk "xyz9" "docs" "/srv/docs" "work" "" "shell"
                     StatusIdle 7%Z None] in
      let (err, w4) :=
        @SaveWithGroups Sample.externals Sample.storage kept
          (Some (Sample.treeOf kept [])) w3 in
      (match err with
       | Some e => RemoveSaveFailed e
       | None => Removed "api"
       end, w4).
Proof.
  intros api instances w w2.
  refine (proj2 (proj2 (@handleRemove_removes_every_match Sample.externals
            "abc" w (snd (NewStorage w)) w2 Sample.storage instances []
            _ _ _))).
  - discriminate.
  - vm_compute. reflexivity.
  - vm_compute. reflexivity.
Defined.

(** C5: [remove] run on a snapshot with the ids abc1, abc2 and xyz9,
    the sessions bound to the first two live, and the identifier abc,
    which is a prefix of two ids. Where one instance at most is to go,
    and none on a prefix that is not unambiguous, the loop takes out both
    abc1 and abc2 and kills both their sessions; the message names the
    second only, and the saved list holds xyz9 alone. *)
Lemma handleRemove_ambiguous_prefix :
  let web := Instance.mk "abc1" "web" "/srv/web" "work" "claude" "claude"
               StatusRunning 5%Z
               (Some (tmux.mkSession "agentdeck_web" "web" "/srv/web"
                        "claude" "active")) in
  let api := Instance.mk "abc2" "api" "/srv/api" "srv" "" "shell"
               StatusIdle 6%Z
               (Some (tmux.mkSession "agentdeck_api" "api" "/srv/api" ""
                        "idle")) in
  let docs := Instance.mk "xyz9" "docs" "/srv/docs" "work" "" "shell"
                StatusIdle 7%Z None in
  let w := mkWorld
             {[ "/home/op/.agent-deck/sessions.json"
                := Sample.encode (storageData [web; api; docs] None 7%Z) ]}
             Sample.home_env 1700000000%Z
             ({[ "agentdeck_web" ]} ∪ {[ "agentdeck_api" ]}) [] [] in
  let ran := @handleRemove Sample.externals "abc" w in
  fst ran = Removed "api" /\
  List.filter (fun ev => match ev with EvKill _ => true | _ => false end)
    (trace (snd ran))
  = [EvKill "agentdeck_web"; EvKill "agentdeck_api"] /\
  sessions (snd ran) = ∅ /\
  fst (@LoadWithGroups Sample.externals Sample.storage (snd ran))
  = inr ([docs], []).
Proof. vm_compute. repeat split. Qed.

(** ** [truncate] and [handleList] *)

Lemma length_take_bytes (n : nat) (s : string) :
  (n <= String.length s)%nat -> String.length (take_bytes n s) = n.
Proof.
  revert s. induction n as [|n IH]; intros s Hn; [reflexivity |].
  destruct s as [|c s]; simpl in *; [lia |]. rewrite IH; lia.
Qed.

Lemma slice_to_Some (s : string) (n : Z) :
  (0 <= n <= Z.of_nat (String.length s))%Z ->
  slice_to s n = Some (take_bytes (Z.to_nat n) s) /\
  Z.of_nat (String.length (take_bytes (Z.to_nat n) s)) = n.
Proof.
  intros Hn. unfold slice_to.
  replace ((0 <=? n)%Z && (n <=? Z.of_nat (String.length s))%Z) with true
    by (symmetry; apply andb_true_iff; split; apply Z.leb_le; lia).
  split; [reflexivity |]. rewrite length_take_bytes; lia.
Qed.

(** X1: [truncate] returns at most [max] bytes for every [max] that is
    not negative: the string itself when it fits, else exactly [max]
    bytes, the first [max] of the string when [max] is at most 3 and the
    first [max - 3] followed by three dots otherwise; with a negative
    [max] it panics. *)
Theorem truncate_bounds (s : string) (max : Z) :
  ((max < 0)%Z -> truncate s max = None) /\
  ((0 <= max)%Z ->
   exists r,
     truncate s max = Some r /\
     (Z.of_nat (String.length r) <= max)%Z /\
     ((Z.of_nat (String.length s) <= max)%Z -> r = s) /\
     ((max < Z.of_nat (String.length s))%Z ->
      Z.of_nat (String.length r) = max /\
      ((max <= 3)%Z -> r = take_bytes (Z.to_nat max) s) /\
      ((3 < max)%Z -> r = take_bytes (Z.to_nat (max - 3)) s +:+ "..."))).
Proof.
  unfold truncate. split.
  - intros Hneg.
    destruct (Z.leb_spec (Z.of_nat (String.length s)) max); [lia |].
    destruct (Z.leb_spec max 3); [| lia].
    unfold slice_to. destruct (Z.leb_spec 0 max); [lia | reflexivity].
  - intros Hmax.
    destruct (Z.leb_spec (Z.of_nat (String.length s)) max) as [Hfit | Hlong].
    + exists s. repeat split; try lia; intros; lia.
    + destruct (Z.leb_spec max 3) as [Hsmall | Hbig].
      * destruct (slice_to_Some s max) as [-> Hlen]; [lia |].
        eexists. split; [reflexivity |]. repeat split; try lia.
      * destruct (slice_to_Some s (max - 3)) as [-> Hlen]; [lia |].
        eexists. split; [reflexivity |].
        assert (Z.of_nat (String.length
                  (take_bytes (Z.to_nat (max - 3)) s +:+ "...")) = max)
          by (rewrite length_append; simpl String.length; lia).
        repeat split; try lia.
Qed.

Lemma truncate_nonneg (s : string) (max : Z) :
  (0 <= max)%Z ->
  exists r, truncate s max = Some r /\
            (Z.of_nat (String.length r) <= max)%Z /\
            ((Z.of_nat (String.length s) <= max)%Z -> r = s).
Proof.
  intros Hmax. unfold truncate.
  destruct (Z.leb_spec (Z.of_nat (String.length s)) max) as [Hfit | Hlong].
  - exists s. repeat split; lia.
  - destruct (Z.leb_spec max 3) as [Hsmall | Hbig].
    + destruct (slice_to_Some s max) as [-> Hlen]; [lia |].
      eexists. split; [reflexivity |]. split; lia.
    + destruct (slice_to_Some s (max - 3)) as [-> Hlen]; [lia |].
      eexists. split; [reflexivity |].
      rewrite length_append. simpl String.length. split; lia.
Qed.

(** What one turn of the table loop prints, and when it panics. *)
Lemma table_row_cases (inst : Instance.t) :
  ((12 <= String.length (Instance.ID inst))%nat ->
   exists row,
     table_row inst = Some row /\
     row_id row = take_bytes 12 (Instance.ID inst) /\
     String.length (row_id row) = 12%nat /\
     (String.length (row_title row) <= 20)%nat /\
     (String.length (row_group row) <= 15)%nat /\
     (String.length (row_path row) <= 40)%nat /\
     ((String.length (Instance.Title inst) <= 20)%nat ->
      row_title row = Instance.Title inst) /\
     ((String.length (Instance.GroupPath inst) <= 15)%nat ->
      row_group row = Instance.GroupPath inst) /\
     ((String.length (Instance.ProjectPath inst) <= 40)%nat ->
      row_path row = Instance.ProjectPath inst)) /\
  ((String.length (Instance.ID inst) < 12)%nat -> table_row inst = None).
Proof.
  unfold table_row.
  destruct (truncate_nonneg (Instance.Title inst) 20) as (t & -> & Ht & Ht'); [lia |].
  destruct (truncate_nonneg (Instance.GroupPath inst) 15) as (g & -> & Hg & Hg'); [lia |].
  destruct (truncate_nonneg (Instance.ProjectPath inst) 40) as (p & -> & Hp & Hp'); [lia |].
  split.
  - intros Hid. destruct (slice_to_Some (Instance.ID inst) 12) as [-> Hlen]; [lia |].
    eexists. split; [reflexivity |]. cbn.
    change (Z.to_nat 12) with 12%nat in *.
    repeat split; try lia; intros; [apply Ht' | apply Hg' | apply Hp']; lia.
  - intros Hid. unfold slice_to.
    destruct (Z.leb_spec 12 (Z.of_nat (String.length (Instance.ID inst))));
      [lia | reflexivity].
Qed.

Lemma table_rows_all (instances : list Instance.t) :
  Forall (fun inst => (12 <= String.length (Instance.ID inst))%nat) instances ->
  exists rows,
    table_rows instances = (rows, true) /\
    Forall2
      (fun inst row =>
         row_id row = take_bytes 12 (Instance.ID inst) /\
         String.length (row_id row) = 12%nat /\
         (String.length (row_title row) <= 20)%nat /\
         (String.length (row_group row) <= 15)%nat /\
         (String.length (row_path row) <= 40)%nat /\
         ((String.length (Instance.Title inst) <= 20)%nat ->
          row_title row = Instance.Title inst) /\
         ((String.length (Instance.GroupPath inst) <= 15)%nat ->
          row_group row = Instance.GroupPath inst) /\
         ((String.length (Instance.ProjectPath inst) <= 40)%nat ->
          row_path row = Instance.ProjectPath inst))
      instances rows.
Proof.
  induction 1 as [|inst rest Hid Hrest (rows & Hrows & Hall)].
  - exists []. split; [reflexivity | constructor].
  - destruct (proj1 (table_row_cases inst) Hid) as (row & Hrow & Hfacts).
    exists (row :: rows). cbn [table_rows]. rewrite Hrow, Hrows.
    split; [reflexivity | now constructor].
Qed.

Lemma table_rows_short (before after : list Instance.t) (inst : Instance.t) :
  Forall (fun i => (12 <= String.length (Instance.ID i))%nat) before ->
  (String.length (Instance.ID inst) < 12)%nat ->
  exists rows,
    table_rows (before ++ inst :: after) = (rows, false) /\
    length rows = length before.
Proof.
  intros Hbefore Hshort.
  induction Hbefore as [|i rest Hid Hrest (rows & Hrows & Hlen)].
  - exists []. cbn [app table_rows].
    rewrite (proj2 (table_row_cases inst) Hshort). split; reflexivity.
  - destruct (proj1 (table_row_cases i) Hid) as (row & Hrow & _).
    exists (row :: rows). cbn [app table_rows]. rewrite Hrow, Hrows.
    split; [reflexivity | simpl; now rewrite Hlen].
Qed.

(** X2: in table form [handleList] prints one row per loaded instance,
    with the title cut to 20 bytes, the group to 15, the path to 40 and
    the id to its first 12 bytes, as long as every id has at least 12
    bytes; at the first instance whose id is shorter it panics, having
    printed the rows of the instances before it. In JSON form it never
    slices an id and prints one record per instance. *)
Theorem handleList_rows `{Externals} (w w1 w2 : World) (storage : Storage)
  (instances : list Instance.t) (groups : list GroupData.t) :
  NewStorage w = (inr storage, w1) ->
  LoadWithGroups storage w1 = (inr (instances, groups), w2) ->
  instances <> [] ->
  (Forall (fun inst => (12 <= String.length (Instance.ID inst))%nat) instances ->
   exists rows,
     handleList false w = (ListTable rows (length instances), w2) /\
     Forall2
       (fun inst row =>
          row_id row = take_bytes 12 (Instance.ID inst) /\
          String.length (row_id row) = 12%nat /\
          (String.length (row_title row) <= 20)%nat /\
          (String.length (row_group row) <= 15)%nat /\
          (String.length (row_path row) <= 40)%nat /\
          ((String.length (Instance.Title inst) <= 20)%nat ->
           row_title row = Instance.Title inst) /\
          ((String.length (Instance.GroupPath inst) <= 15)%nat ->
           row_group row = Instance.GroupPath inst) /\
          ((String.length (Instance.ProjectPath inst) <= 40)%nat ->
           row_path row = Instance.ProjectPath inst))
       instances rows) /\
  (forall before inst after,
     instances = before ++ inst :: after ->
     Forall (fun i => (12 <= String.length (Instance.ID i))%nat) before ->
     (String.length (Instance.ID inst) < 12)%nat ->
     exists rows,
       handleList false w = (ListPanicked rows, w2) /\
       length rows = length before) /\
  (exists sessions,
     handleList true w = (ListJSON sessions, w2) /\
     json_ID <$> sessions = Instance.ID <$> instances).
Proof.
  intros Hstorage Hload Hne.
  assert (Hlen : (length instances =? 0)%nat = false)
    by (destruct instances; [contradiction | reflexivity]).
  unfold handleList, bind. rewrite Hstorage, Hload, Hlen.
  split; [| split].
  - intros Hids. destruct (table_rows_all instances Hids) as (rows & -> & Hall).
    exists rows. split; [reflexivity | exact Hall].
  - intros before inst after -> Hbefore Hshort.
    destruct (table_rows_short before after inst Hbefore Hshort)
      as (rows & -> & Hrows).
    exists rows. split; [reflexivity | exact Hrows].
  - eexists. split; [reflexivity |].
    clear. induction instances as [|i l IH]; [reflexivity |].
    cbn. f_equal. exact IH.
Qed.

Lemma handleList_rows_witness :
  let long := Instance.mk "0123456789abcdef" "a title longer than twenty bytes"
                "/srv/web" "work" "claude" "claude" StatusRunning 5%Z None in
  let short := Instance.mk "abc2" "api" "/srv/api" "srv" "" "shell"
                 StatusIdle 6%Z None in
  let w := Sample.world
             {[ "/home/op/.agent-deck/sessions.json"
                := Sample.encode (storageData [long; short] None 7%Z) ]} [] in
  exists rows,
    @handleList Sample.externals false w
    = (ListPanicked rows,
       snd (@LoadWithGroups Sample.externals Sample.storage
              (snd (NewStorage w)))) /\
    length rows = 1%nat.
Proof.
  intros long short w.
  refine (proj1 (proj2 (@handleList_rows Sample.externals w
            (snd (NewStorage w))
            (snd (@LoadWithGroups Sample.externals Sample.storage
                    (snd (NewStorage w))))
            Sample.storage [long; short] [] _ _ _)) [long] short [] _ _ _).
  - vm_compute. reflexivity.
  - vm_compute. reflexivity.
  - discriminate.
  - reflexivity.
  - repeat constructor.
  - simpl. lia.
Defined.

(** X3: when the loaded list is empty, as it is when there is no
    snapshot file yet, [handleList] prints the line that says there are
    no sessions, in table form and in JSON form alike: with nothing to
    list the JSON form prints no JSON. *)
Theorem handleList_empty `{Externals} (jsonOutput : bool) (w w1 w2 : World)
  (storage : Storage) (groups : list GroupData.t) :
  NewStorage w = (inr storage, w1) ->
  LoadWithGroups storage w1 = (inr ([], groups), w2) ->
  handleList jsonOutput w = (ListEmpty, w2).
Proof.
  intros Hstorage Hload. unfold handleList, bind.
  now rewrite Hstorage, Hload.
Qed.

Lemma handleList_empty_witness :
  let w := Sample.world ∅ [] in
  @handleList Sample.externals true w
  = (ListEmpty,
     snd (@LoadWithGroups Sample.externals Sample.storage (snd (NewStorage w)))).
Proof.
  intros w.
  apply (@handleList_empty Sample.externals true w (snd (NewStorage w))
           (snd (@LoadWithGroups Sample.externals Sample.storage
                   (snd (NewStorage w))))
           Sample.storage []).
  - vm_compute. reflexivity.
  - vm_compute. reflexivity.
Defined.

Lemma NewStorage_keeps (w : World) :
  let w1 := snd (NewStorage w) in
  files w1 = files w /\ environ w1 = environ w /\ clock w1 = clock w /\
  sessions w1 = sessions w.
Proof.
  cbv zeta. unfold NewStorage, bind, get_environ.
  destruct (GetStoragePath (environ w)) as [err | p]; [now cbn |].
  destruct (os_MkdirAll (filepath.Dir p) w) as [err w'] eqn:Hmk.
  apply os_MkdirAll_inv in Hmk as (_ & Hf & (_ & He & Hc & Hs) & _).
  destruct err; cbn; auto.
Qed.

(** X4: [handleList] changes no file and ends no session, whatever the
    flag, the files and the calls that fail. *)
Theorem handleList_reads_only `{Externals} (jsonOutput : bool) (w : World) :
  let w' := snd (handleList jsonOutput w) in
  files w' = files w /\ sessions w' = sessions w /\ environ w' = environ w.
Proof.
  cbv zeta. unfold handleList, bind.
  pose proof (NewStorage_keeps w) as Hnew. cbv zeta in Hnew.
  destruct (NewStorage w) as [[err | storage] w1]; cbn in Hnew.
  { cbn. tauto. }
  pose proof (LoadWithGroups_reads_only storage w1) as Hload.
  cbv zeta in Hload.
  destruct (LoadWithGroups storage w1) as [[err | [instances groups]] w2];
    cbn in Hload.
  { cbn. destruct Hnew as (? & ? & ? & ?), Hload as (? & ? & ? & ? & _).
    repeat split; congruence. }
  assert (Hgoal : files w2 = files w /\ sessions w2 = sessions w /\
                  environ w2 = environ w).
  { destruct Hnew as (? & ? & ? & ?), Hload as (? & ? & ? & ? & _).
    repeat split; congruence. }
  destruct (length instances =? 0)%nat; [exact Hgoal |].
  destruct jsonOutput; [exact Hgoal |].
  destruct (table_rows instances) as [rows [|]]; exact Hgoal.
Qed.

(** X5: with no home directory in the environment, [$HOME] unset or
    empty, [handleList] and, given an identifier, [handleRemove] stop at
    [NewStorage] with the home-directory error: no directory is created,
    no file is looked up, read or written, no session is touched, and
    the world is left as it was. *)
Theorem handlers_without_home `{Externals} (w : World)
  (identifier : string) (jsonOutput : bool) :
  os_Getenv (environ w) "HOME" = EmptyString ->
  handleList jsonOutput w = (ListStorageFailed ErrHomeDir, w) /\
  (identifier <> EmptyString ->
   handleRemove identifier w = (RemoveStorageFailed ErrHomeDir, w)).
Proof.
  intros Hhome.
  assert (Hstorage : NewStorage w = (inl ErrHomeDir, w)).
  { unfold NewStorage, bind, get_environ, GetStoragePath, os_UserHomeDir.
    now rewrite Hhome. }
  unfold handleList, handleRemove, bind. rewrite Hstorage.
  split; [reflexivity |]. intros Hid.
  destruct (String.eqb_spec identifier ""); [contradiction |].
  now rewrite Hstorage.
Qed.

Lemma handlers_without_home_witness :
  let w := mkWorld ∅ ∅ 0%Z ∅ [] [] in
  @handleList Sample.externals false w = (ListStorageFailed ErrHomeDir, w) /\
  @handleRemove Sample.externals "abc" w
  = (RemoveStorageFailed ErrHomeDir, w).
Proof.
  intros w.
  destruct (@handlers_without_home Sample.externals w "abc" false eq_refl)
    as [Hlist Hremove].
  split; [exact Hlist | apply Hremove; discriminate].
Defined.

(** ** What a save leaves behind *)

Ltac split_ands := repeat match goal with |- _ /\ _ => split end.

(** What [SaveWithGroups] does to the files, whatever call fails. *)
Lemma SaveWithGroups_effect `{Externals} (s : Storage)
  (instances : list Instance.t) (groupTree : option GroupTree.t)
  (w w' : World) (res : option Error) :
  SaveWithGroups s instances groupTree w = (res, w') ->
  (forall p, p <> path s -> p <> path s +:+ ".tmp" ->
             p <> path s +:+ ".bak" -> files w' !! p = files w !! p) /\
  (res <> None -> files w' !! path s = files w !! path s) /\
  (res = None ->
   exists jsonData,
     json_MarshalIndent (storageData instances groupTree (clock w))
     = inr jsonData /\
     files w' !! path s = Some jsonData /\
     files w' !! (path s +:+ ".tmp") = None) /\
  environ w' = environ w /\ clock w' = clock w /\ sessions w' = sessions w.
Proof.
  pose proof (tmp_neq_path (path s)) as Htmp.
  pose proof (bak_neq_path (path s)) as Hbak.
  unfold SaveWithGroups, bind, time_Now.
  destruct (json_MarshalIndent _) as [msg | jsonData] eqn:Hm.
  { intros [= <- <-]. split_ands; congruence. }
  destruct (os_WriteFile _ jsonData w) as [e1 w1] eqn:Hwrite.
  apply os_WriteFile_inv in Hwrite
    as (_ & (_ & He1 & Hc1 & Hs1) & Hfr1 & Hok1 & _).
  destruct e1 as [e1|].
  { intros [= <- <-]. split_ands; try congruence.
    - intros p _ Hp _. now apply Hfr1.
    - intros _. now apply Hfr1. }
  specialize (Hok1 eq_refl).
  assert (Hfinish : forall w3,
    (forall p, p <> path s +:+ ".bak" -> files w3 !! p = files w1 !! p) ->
    environ w3 = environ w1 -> clock w3 = clock w1 ->
    sessions w3 = sessions w1 ->
    (let (a0, w4) := os_Rename (path s +:+ ".tmp") (path s) w3 in
     match a0 with
     | Some e => ret (Some (ErrFinalize e))
     | None => ret None
     end w4) = (res, w') ->
    (forall p, p <> path s -> p <> path s +:+ ".tmp" ->
               p <> path s +:+ ".bak" -> files w' !! p = files w !! p) /\
    (res <> None -> files w' !! path s = files w !! path s) /\
    (res = None ->
     exists jsonData0,
       @inr string string jsonData = inr jsonData0 /\
       files w' !! path s = Some jsonData0 /\
       files w' !! (path s +:+ ".tmp") = None) /\
    environ w' = environ w /\ clock w' = clock w /\ sessions w' = sessions w).
  { intros w3 Hfr3 He3 Hc3 Hs3.
    destruct (os_Rename _ _ w3) as [e4 w4] eqn:Hren.
    apply os_Rename_inv in Hren
      as (_ & (_ & He4 & Hc4 & Hs4) & Hfail4 & Hok4 & _).
    destruct e4 as [e4|]; intros [= <- <-].
    - rewrite Hfail4 by discriminate.
      split_ands; try congruence.
      + intros p _ Hp1 Hp2. rewrite Hfr3 by assumption. now apply Hfr1.
      + intros _. rewrite Hfr3 by (apply not_eq_sym; assumption).
        now apply Hfr1.
    - destruct (Hok4 eq_refl) as (data & Hdata & ->).
      rewrite Hfr3 in Hdata by (apply not_eq_sym, bak_neq_tmp).
      rewrite Hok1, lookup_insert_eq in Hdata. injection Hdata as <-.
      split_ands; try congruence.
      + intros p Hp0 Hp1 Hp2.
        rewrite lookup_insert_ne by (apply not_eq_sym; assumption).
        rewrite lookup_delete_ne by (apply not_eq_sym; assumption).
        rewrite Hfr3 by assumption. now apply Hfr1.
      + intros _. exists jsonData. split; [reflexivity |]. split.
        * apply lookup_insert_eq.
        * rewrite lookup_insert_ne by (apply not_eq_sym; assumption).
          apply lookup_delete_eq. }
  destruct (os_Stat (path s) w1) as [st w2] eqn:Hstat.
  apply os_Stat_inv in Hstat as (_ & Hf2 & (_ & He2 & Hc2 & Hs2) & _ & _).
  destruct st as [e|].
  - apply Hfinish; congruence.
  - destruct (copyFile (path s) (path s +:+ ".bak") w2) as [e3 w3] eqn:Hcopy.
    apply copyFile_inv in Hcopy as (Hfr3 & He3 & Hc3 & Hs3 & _).
    apply Hfinish; try congruence.
    intros p Hp. rewrite Hfr3 by assumption. now rewrite Hf2.
Qed.

(** X6: whatever call fails, [SaveWithGroups] touches no file but the
    canonical one, the temporary one and the backup, changes neither the
    environment nor the sessions, and after a save that returns no error
    the temporary file is gone. *)
Theorem SaveWithGroups_touches_three_paths `{Externals} (s : Storage)
  (instances : list Instance.t) (groupTree : option GroupTree.t) (w : World) :
  let res := fst (SaveWithGroups s instances groupTree w) in
  let w' := snd (SaveWithGroups s instances groupTree w) in
  (forall p, p <> path s -> p <> path s +:+ ".tmp" ->
             p <> path s +:+ ".bak" -> files w' !! p = files w !! p) /\
  environ w' = environ w /\ sessions w' = sessions w /\
  (res = None -> files w' !! (path s +:+ ".tmp") = None).
Proof.
  cbv zeta.
  destruct (SaveWithGroups s instances groupTree w) as [res w'] eqn:Hsave.
  apply SaveWithGroups_effect in Hsave
    as (Hframe & _ & Hdone & Henv & _ & Hsess).
  cbn. split_ands; try assumption.
  intros Hres. destruct (Hdone Hres) as (j & _ & _ & Htmp). exact Htmp.
Qed.

Lemma copyFile_ok (src dst data : string) (w : World) (n : nat) :
  files w !! src = Some data ->
  calls_succeed (2 + n) w ->
  exists w',
    copyFile src dst w = (None, w') /\
    files w' = <[dst := data]> (files w) /\
    environ w' = environ w /\ calls_succeed n w'.
Proof.
  intros Hsrc Hcalls. change (calls_succeed (S (S n)) w) in Hcalls.
  unfold copyFile, bind.
  destruct (os_ReadFile src w) as [r w1] eqn:Hread.
  apply os_ReadFile_inv in Hread as (_ & Hf1 & (Hfa1 & He1 & _) & _ & Hr).
  specialize (Hr (calls_succeed_now _ _ Hcalls)). rewrite Hsrc in Hr. subst r.
  pose proof (calls_succeed_next _ _ _ Hcalls Hfa1) as Hcalls1.
  destruct (os_WriteFile dst data w1) as [e2 w2] eqn:Hwrite.
  apply os_WriteFile_inv in Hwrite as (_ & (Hfa2 & He2 & _) & _ & Hok2 & Hnf2).
  specialize (Hnf2 (calls_succeed_now _ _ Hcalls1)). subst e2.
  exists w2. split_ands; [reflexivity | | congruence |].
  - rewrite (Hok2 eq_refl). now rewrite Hf1.
  - eapply calls_succeed_next; eassumption.
Qed.

(** X7: when no call fails, a save ends with the serialized snapshot in
    the canonical file, no temporary file, and in the backup file the
    bytes the canonical file held before the save; when there was no
    canonical file the backup file is left as it was. *)
Theorem SaveWithGroups_keeps_backup `{Externals} (s : Storage)
  (instances : list Instance.t) (groupTree : option GroupTree.t) (w : World)
  (jsonData : string) :
  json_MarshalIndent (storageData instances groupTree (clock w))
  = inr jsonData ->
  calls_succeed 5 w ->
  exists w',
    SaveWithGroups s instances groupTree w = (None, w') /\
    files w' !! path s = Some jsonData /\
    files w' !! (path s +:+ ".tmp") = None /\
    files w' !! (path s +:+ ".bak")
    = match files w !! path s with
      | Some old => Some old
      | None => files w !! (path s +:+ ".bak")
      end.
Proof.
  intros Hm Hcalls.
  pose proof (tmp_neq_path (path s)) as Htmp.
  pose proof (bak_neq_path (path s)) as Hbak.
  pose proof (bak_neq_tmp (path s)) as Hbt.
  change (calls_succeed (S (S (S (S (S O))))) w) in Hcalls.
  unfold SaveWithGroups, bind, time_Now. rewrite Hm.
  destruct (os_WriteFile _ jsonData w) as [e1 w1] eqn:Hwrite.
  apply os_WriteFile_inv in Hwrite as (_ & (Hfa1 & _) & _ & Hok1 & Hnf1).
  specialize (Hnf1 (calls_succeed_now _ _ Hcalls)). subst e1.
  specialize (Hok1 eq_refl).
  pose proof (calls_succeed_next _ _ _ Hcalls Hfa1) as Hcalls1.
  destruct (os_Stat (path s) w1) as [st w2] eqn:Hstat.
  apply os_Stat_inv in Hstat as (_ & Hf2 & (Hfa2 & _) & _ & Hst).
  specialize (Hst (calls_succeed_now _ _ Hcalls1)).
  rewrite Hok1, lookup_insert_ne in Hst by assumption.
  pose proof (calls_succeed_next _ _ _ Hcalls1 Hfa2) as Hcalls2.
  assert (Hfinish : forall w3 (bak : option string),
    files w3 !! (path s +:+ ".tmp") = Some jsonData ->
    files w3 !! (path s +:+ ".bak") = bak ->
    calls_succeed 1 w3 ->
    exists w',
      (let (a0, w4) := os_Rename (path s +:+ ".tmp") (path s) w3 in
       match a0 with
       | Some e => ret (Some (ErrFinalize e))
       | None => ret None
       end w4) = (None, w') /\
      files w' !! path s = Some jsonData /\
      files w' !! (path s +:+ ".tmp") = None /\
      files w' !! (path s +:+ ".bak") = bak).
  { intros w3 bak Htmp3 Hbak3 Hcalls3.
    destruct (os_Rename _ _ w3) as [e4 w4] eqn:Hren.
    apply os_Rename_inv in Hren as (_ & _ & _ & Hok4 & Hnf4).
    assert (e4 = None) as ->
      by (apply Hnf4; [eapply calls_succeed_now; eassumption | eauto]).
    destruct (Hok4 eq_refl) as (data & Hdata & Hfiles4).
    cbn. exists w4. rewrite Hfiles4. split_ands.
    - reflexivity.
    - rewrite lookup_insert_eq. congruence.
    - rewrite lookup_insert_ne by (apply not_eq_sym; assumption).
      apply lookup_delete_eq.
    - rewrite lookup_insert_ne by (apply not_eq_sym; assumption).
      now rewrite lookup_delete_ne by (apply not_eq_sym; assumption). }
  destruct (files w !! path s) as [old|] eqn:Hold; subst st.
  - assert (Hsrc : files w2 !! path s = Some old).
    { rewrite Hf2, Hok1, lookup_insert_ne by assumption. exact Hold. }
    destruct (copyFile_ok (path s) (path s +:+ ".bak") old w2 1 Hsrc Hcalls2)
      as (w3 & -> & Hf3 & _ & Hcalls3).
    apply Hfinish; [| | assumption].
    + rewrite Hf3, lookup_insert_ne by assumption.
      rewrite Hf2, Hok1. apply lookup_insert_eq.
    + rewrite Hf3. apply lookup_insert_eq.
  - cbn. apply Hfinish.
    + rewrite Hf2, Hok1. apply lookup_insert_eq.
    + rewrite Hf2, Hok1. now rewrite lookup_insert_ne by (apply not_eq_sym; assumption).
    + now do 2 apply calls_succeed_fewer.
Qed.

Lemma SaveWithGroups_keeps_backup_witness :
  let inst := Instance.mk "abc1" "web" "/srv/web" "work" "claude" "claude"
                StatusRunning 5%Z None in
  let w := Sample.world
             {[ "/home/op/.agent-deck/sessions.json" := "previous bytes" ]}
             [] in
  exists w',
    @SaveWithGroups Sample.externals Sample.storage [inst] None w
    = (None, w') /\
    files w' !! "/home/op/.agent-deck/sessions.json"
    = Some (Sample.encode (storageData [inst] None (clock w))) /\
    files w' !! "/home/op/.agent-deck/sessions.json.tmp" = None /\
    files w' !! "/home/op/.agent-deck/sessions.json.bak"
    = Some "previous bytes".
Proof.
  intros inst w.
  apply (@SaveWithGroups_keeps_backup Sample.externals Sample.storage
           [inst] None w (Sample.encode (storageData [inst] None (clock w)))).
  - reflexivity.
  - reflexivity.
Defined.

(** X8: [Save], which passes no group tree, writes a snapshot without
    groups: when no call fails and the snapshot survives marshalling and
    unmarshalling, a load after it returns as many instances as were
    saved and no group record, whatever groups the file held before. *)
Theorem Save_drops_groups `{Externals} (s : Storage)
  (instances : list Instance.t) (w : World) (jsonData : string) :
  let data := storageData instances None (clock w) in
  json_MarshalIndent data = inr jsonData ->
  json_Unmarshal jsonData = inr data ->
  calls_succeed 7 w ->
  exists w1 loaded w2,
    Save s instances w = (None, w1) /\
    LoadWithGroups s w1 = (inr (loaded, []), w2) /\
    length loaded = length instances.
Proof.
  intros data Hm Hu Hcalls. unfold Save.
  destruct (SaveWithGroups_succeeds s instances None w jsonData 2 Hm Hcalls)
    as (w1 & Hsave & Hfile & _ & Hcalls1).
  destruct (LoadWithGroups_parsed s w1 jsonData data Hfile Hu Hcalls1)
    as (loaded & w2 & Hload & Hall & _).
  exists w1, loaded, w2. split_ands; [exact Hsave | exact Hload |].
  apply Forall2_length in Hall. subst data. cbn in Hall.
  rewrite length_map in Hall. congruence.
Qed.

Lemma Save_drops_groups_witness :
  let inst := Instance.mk "abc1" "web" "/srv/web" "work" "claude" "claude"
                StatusRunning 5%Z None in
  let tree := GroupTree.mk [Group.mk "work" "work" true 0%Z] in
  let w := Sample.world
             {[ "/home/op/.agent-deck/sessions.json"
                := Sample.encode (storageData [inst] (Some tree) 7%Z) ]} [] in
  exists w1 loaded w2,
    @Save Sample.externals Sample.storage [inst] w = (None, w1) /\
    @LoadWithGroups Sample.externals Sample.storage w1
    = (inr (loaded, []), w2) /\
    length loaded = 1%nat.
Proof.
  intros inst tree w.
  apply (@Save_drops_groups Sample.externals Sample.storage [inst] w
           (Sample.encode (storageData [inst] None (clock w)))).
  - reflexivity.
  - vm_compute. reflexivity.
  - reflexivity.
Defined.

(** X9: when the canonical file is there and its bytes unmarshal to a
    snapshot of records (the snapshots of this development hold records
    only: an instance array with a null entry is not one of them), a
    load never takes the file for missing, whatever call fails: a failed
    [os.Stat] is passed over and the file is read all the same; the load
    returns a read error that is not the file-not-found error, or the
    groups of that snapshot with one restored instance for each of its
    records, in their order. *)
Theorem LoadWithGroups_present_file `{Externals} (s : Storage) (w : World)
  (jsonData : string) (data : StorageData.t) :
  files w !! path s = Some jsonData ->
  json_Unmarshal jsonData = inr data ->
  match fst (LoadWithGroups s w) with
  | inl (ErrReadFile e) => e <> ErrNotExist
  | inl _ => False
  | inr (instances, groups) =>
      groups = StorageData.Groups data /\
      Forall2 (loaded_from (environ w)) (StorageData.Instances data)
              instances
  end.
Proof.
  intros Hfile Hparse. unfold LoadWithGroups, bind.
  destruct (os_Stat (path s) w) as [st w1] eqn:Hstat.
  assert (Hst : os_IsNotExist st = false).
  { revert Hstat. unfold os_Stat, bind, next_fault. cbn.
    change (files (after_call w)) with (files w). rewrite Hfile.
    destruct (fault_now w); now intros [= <- <-]. }
  apply os_Stat_inv in Hstat as (_ & Hf1 & (_ & He1 & _) & _ & _).
  rewrite Hst.
  destruct (os_ReadFile (path s) w1) as [r w2] eqn:Hread.
  assert (Hr : match r with
               | inl e => e <> ErrNotExist
               | inr read => read = jsonData
               end).
  { revert Hread. unfold os_ReadFile, bind, next_fault. cbn.
    change (files (after_call w1)) with (files w1). rewrite Hf1, Hfile.
    destruct (fault_now w1); intros [= <- <-]; [discriminate | reflexivity]. }
  apply os_ReadFile_inv in Hread as (_ & Hf2 & (_ & He2 & _) & _ & _).
  destruct r as [e | read]; [exact Hr | subst read].
  rewrite Hparse.
  destruct (mapM loadInstance (StorageData.Instances data) w2)
    as [instances w3] eqn:Hloop.
  apply mapM_loadInstance_inv in Hloop as (Hall & _).
  cbn. split; [reflexivity |].
  now rewrite He2, He1 in Hall.
Qed.

Lemma LoadWithGroups_present_file_witness :
  let d := InstanceData.mk "abc1" "web" "/srv/web" "work" "claude" "claude"
             StatusIdle 5%Z "" in
  let data := StorageData.mk [d] [] 7%Z in
  let jsonData := Sample.encode data in
  let w := Sample.world {[ "/home/op/.agent-deck/sessions.json" := jsonData ]}
             [Some (mkFault EACCES None)] in
  match fst (@LoadWithGroups Sample.externals Sample.storage w) with
  | inl (ErrReadFile e) => e <> ErrNotExist
  | inl _ => False
  | inr (instances, groups) =>
      groups = StorageData.Groups data /\
      Forall2 (@loaded_from Sample.externals (environ w))
              (StorageData.Instances data) instances
  end.
Proof.
  intros d data jsonData w.
  apply (@LoadWithGroups_present_file Sample.externals Sample.storage w
           jsonData data).
  - reflexivity.
  - vm_compute. reflexivity.
Defined.

(** X10: when the home directory is an absolute path, expanding a
    project path twice gives what expanding it once gives: a path that a
    load has expanded is left alone by the next load. *)
Theorem expandTilde_idempotent (env : gmap string string) (p : string) :
  (forall home, os_UserHomeDir env = Some home ->
                filepath.IsAbs home = true) ->
  expandTilde env (expandTilde env p) = expandTilde env p.
Proof.
  intros Habs.
  destruct (strings.HasPrefix p "~/") eqn:Hp.
  - destruct (os_UserHomeDir env) as [home|] eqn:Hhome.
    + destruct (expandTilde_cases env p) as (Hexp & _ & _).
      destruct (Hexp Hp home Hhome) as (_ & Hrooted).
      specialize (Hrooted (Habs home eq_refl)).
      destruct (expandTilde_cases env (expandTilde env p)) as (_ & Hsame & _).
      apply Hsame.
      unfold filepath.IsAbs in Hrooted.
      destruct (expandTilde env p) as [|c rest]; [reflexivity |].
      simpl in Hrooted. apply andb_true_iff in Hrooted as [Hc _].
      apply Ascii.eqb_eq in Hc. subst c. reflexivity.
    + destruct (expandTilde_cases env p) as (_ & _ & Hnone).
      now rewrite !Hnone.
  - destruct (expandTilde_cases env p) as (_ & Hsame & _).
    now rewrite !Hsame.
Qed.

Lemma expandTilde_idempotent_witness :
  expandTilde Sample.home_env (expandTilde Sample.home_env "~/proj/../api")
  = expandTilde Sample.home_env "~/proj/../api".
Proof.
  apply (expandTilde_idempotent Sample.home_env "~/proj/../api").
  intros home Hhome. vm_compute in Hhome. injection Hhome as <-. reflexivity.
Defined.

(** ** Adding and removing, and the snapshot file *)

Lemma find_none_ProjectPath (p : string) (instances : list Instance.t) :
  find (fun i => String.eqb (Instance.ProjectPath i) p) instances = None <->
  forall i, i ∈ instances -> Instance.ProjectPath i <> p.
Proof.
  induction instances as [|i rest IH]; simpl.
  - split; [intros _ i Hi; now apply elem_of_nil in Hi | reflexivity].
  - destruct (String.eqb_spec (Instance.ProjectPath i) p) as [Hi | Hi].
    + split; [discriminate |]. intros Hall.
      exfalso. apply (Hall i); [apply list_elem_of_here | assumption].
    + rewrite IH. split.
      * intros Hall j Hj. apply elem_of_cons in Hj as [-> | Hj]; auto.
      * intros Hall j Hj. apply Hall. now apply list_elem_of_further.
Qed.

(** [handleAdd] once the storage is there and the list is loaded. *)
Lemma handleAdd_loaded `{Externals}
  (projectPath sessionTitle sessionGroup sessionCommand : string)
  (w w1 w2 : World) (storage : Storage) (instances : list Instance.t)
  (groups : list GroupData.t) :
  NewStorage w = (inr storage, w1) ->
  LoadWithGroups storage w1 = (inr (instances, groups), w2) ->
  find (fun i => String.eqb (Instance.ProjectPath i) projectPath) instances
  = None ->
  let inst := addedInstance w2 projectPath sessionTitle sessionGroup
                sessionCommand in
  handleAdd projectPath sessionTitle sessionGroup sessionCommand w
  = (let (err, w') :=
       SaveWithGroups storage (instances ++ [inst])
         (Some (addedGroupTree (instances ++ [inst]) groups inst)) w2 in
     (match err with
      | Some e => AddSaveFailed e
      | None => Added inst
      end, w')).
Proof.
  intros Hstorage Hload Hfind inst.
  unfold handleAdd. unfold bind at 1. rewrite Hstorage.
  unfold bind at 1. rewrite Hload, Hfind.
  unfold bind at 1. unfold bind at 1.
  fold (addedInstance w2 projectPath sessionTitle sessionGroup sessionCommand).
  fold inst.
  fold (addedGroupTree (instances ++ [inst]) groups inst).
  destruct (SaveWithGroups storage _ _ w2) as [[e|] w']; reflexivity.
Qed.

(** X11: an add that does not end with a new instance leaves the
    snapshot as it was: no file at all is changed when the storage or the
    load fails or the path is already there, and when the save fails the
    canonical file holds what it held before. *)
Theorem handleAdd_failure_keeps_snapshot `{Externals}
  (projectPath sessionTitle sessionGroup sessionCommand : string)
  (w : World) :
  let ran := handleAdd projectPath sessionTitle sessionGroup sessionCommand w in
  match fst ran with
  | Added _ => True
  | AddSaveFailed _ =>
      forall p, GetStoragePath (environ w) = inr p ->
                files (snd ran) !! p = files w !! p
  | _ => files (snd ran) = files w
  end.
Proof.
  cbv zeta.
  destruct (NewStorage w) as [[err | storage] w1] eqn:Hstorage.
  { unfold handleAdd, bind. rewrite Hstorage. cbn.
    pose proof (NewStorage_keeps w) as Hk. cbv zeta in Hk.
    rewrite Hstorage in Hk. apply Hk. }
  pose proof (NewStorage_inv _ _ _ Hstorage) as (Hf1 & He1 & Hpath).
  pose proof (LoadWithGroups_reads_only storage w1) as Hreads.
  cbv zeta in Hreads.
  destruct (LoadWithGroups storage w1) as [[err | [instances groups]] w2]
    eqn:Hload; cbn in Hreads; destruct Hreads as (Hf2 & He2 & _).
  { unfold handleAdd, bind. rewrite Hstorage, Hload. cbn. congruence. }
  destruct (find (fun i => String.eqb (Instance.ProjectPath i) projectPath)
              instances) as [found|] eqn:Hfind.
  { unfold handleAdd, bind. rewrite Hstorage, Hload, Hfind. cbn. congruence. }
  rewrite (handleAdd_loaded _ _ _ _ _ _ _ _ _ _ Hstorage Hload Hfind).
  cbv zeta.
  destruct (SaveWithGroups storage _ _ w2) as [[e|] w'] eqn:Hsave;
    [| exact I].
  apply SaveWithGroups_effect in Hsave as (_ & Hkeep & _).
  cbn. intros p Hp. rewrite Hp in Hpath. injection Hpath as ->.
  rewrite Hkeep by discriminate. congruence.
Qed.

(** X12: when an add ends with a new instance, no loaded instance had
    that project path, the new instance carries the command and the tool
    detected from it if a command was given, and the canonical file
    holds the serialized snapshot of the loaded instances, in their
    order, followed by the new one. *)
Theorem handleAdd_added `{Externals}
  (projectPath sessionTitle sessionGroup sessionCommand : string)
  (w w' : World) (inst : Instance.t) :
  handleAdd projectPath sessionTitle sessionGroup sessionCommand w
  = (Added inst, w') ->
  exists storage w1 instances groups w2 jsonData,
    NewStorage w = (inr storage, w1) /\
    LoadWithGroups storage w1 = (inr (instances, groups), w2) /\
    (forall i, i ∈ instances -> Instance.ProjectPath i <> projectPath) /\
    inst = addedInstance w2 projectPath sessionTitle sessionGroup
             sessionCommand /\
    (sessionCommand <> EmptyString ->
     Instance.Command inst = sessionCommand /\
     Instance.Tool inst = detectTool sessionCommand) /\
    json_MarshalIndent
      (storageData (instances ++ [inst])
         (Some (addedGroupTree (instances ++ [inst]) groups inst)) (clock w))
    = inr jsonData /\
    files w' !! path storage = Some jsonData.
Proof.
  intros Hadd.
  destruct (NewStorage w) as [[err | storage] w1] eqn:Hstorage.
  { unfold handleAdd, bind in Hadd. rewrite Hstorage in Hadd. discriminate. }
  pose proof (NewStorage_keeps w) as Hk. cbv zeta in Hk.
  rewrite Hstorage in Hk. cbn in Hk. destruct Hk as (_ & _ & Hc1 & _).
  pose proof (LoadWithGroups_reads_only storage w1) as Hreads.
  cbv zeta in Hreads.
  destruct (LoadWithGroups storage w1) as [[err | [instances groups]] w2]
    eqn:Hload; cbn in Hreads; destruct Hreads as (_ & _ & Hc2 & _).
  { unfold handleAdd, bind in Hadd. rewrite Hstorage, Hload in Hadd.
    discriminate. }
  destruct (find (fun i => String.eqb (Instance.ProjectPath i) projectPath)
              instances) as [found|] eqn:Hfind.
  { unfold handleAdd, bind in Hadd. rewrite Hstorage, Hload, Hfind in Hadd.
    discriminate. }
  rewrite (handleAdd_loaded _ _ _ _ _ _ _ _ _ _ Hstorage Hload Hfind) in Hadd.
  cbv zeta in Hadd.
  destruct (SaveWithGroups storage _ _ w2) as [[e|] w3] eqn:Hsave;
    [discriminate |].
  injection Hadd as <- <-.
  apply SaveWithGroups_effect in Hsave as (_ & _ & Hdone & _).
  destruct (Hdone eq_refl) as (jsonData & Hm & Hfile & _).
  exists storage, w1, instances, groups, w2, jsonData.
  split_ands; try reflexivity; try assumption.
  - now apply find_none_ProjectPath.
  - intros Hcmd. unfold addedInstance.
    destruct (String.eqb_spec sessionCommand ""); [contradiction |].
    split; reflexivity.
  - rewrite <- Hm. do 2 f_equal. congruence.
Qed.

Lemma handleAdd_added_witness :
  let old := Instance.mk "abc1" "web" "/srv/web" "work" "claude" "claude"
               StatusRunning 5%Z None in
  let w := Sample.world
             {[ "/home/op/.agent-deck/sessions.json"
                := Sample.encode (storageData [old] None 7%Z) ]} [] in
  let ran := @handleAdd Sample.externals "/srv/api" "api" "" "Aider --yes" w in
  let inst := Instance.mk "id-api" "api" "/srv/api" "srv" "Aider --yes"
                "aider" StatusIdle 1700000000%Z None in
  exists storage w1 instances groups w2 jsonData,
    NewStorage w = (inr storage, w1) /\
    @LoadWithGroups Sample.externals storage w1
    = (inr (instances, groups), w2) /\
    (forall i, i ∈ instances -> Instance.ProjectPath i <> "/srv/api") /\
    inst = @addedInstance Sample.externals w2 "/srv/api" "api" "" "Aider --yes" /\
    ("Aider --yes" <> EmptyString ->
     Instance.Command inst = "Aider --yes" /\
     Instance.Tool inst = @detectTool Sample.externals "Aider --yes") /\
    Sample.Marshal
      (storageData (instances ++ [inst])
         (Some (@addedGroupTree Sample.externals (instances ++ [inst])
                  groups inst)) (clock w))
    = inr jsonData /\
    files (snd ran) !! path storage = Some jsonData.
Proof.
  intros old w ran inst.
  apply (@handleAdd_added Sample.externals "/srv/api" "api" "" "Aider --yes"
           w (snd ran) inst).
  vm_compute. reflexivity.
Defined.

Lemma NewStorage_ok (w : World) (storage : Storage) (n : nat) :
  GetStoragePath (environ w) = inr (path storage) ->
  calls_succeed (1 + n) w ->
  exists w1,
    NewStorage w = (inr storage, w1) /\
    files w1 = files w /\ environ w1 = environ w /\ calls_succeed n w1.
Proof.
  intros Hpath Hcalls. change (calls_succeed (S n) w) in Hcalls.
  unfold NewStorage, bind, get_environ. rewrite Hpath.
  destruct (os_MkdirAll (filepath.Dir (path storage)) w) as [err w1] eqn:Hmk.
  apply os_MkdirAll_inv in Hmk as (_ & Hf & (Hfa & He & _) & Hnf).
  rewrite (Hnf (calls_succeed_now _ _ Hcalls)).
  exists w1. destruct storage as [p]. cbn. split_ands; try assumption.
  - reflexivity.
  - eapply calls_succeed_next; eassumption.
Qed.

(** [handleAdd] when the loaded list has an instance at the path. *)
Lemma handleAdd_finds `{Externals}
  (projectPath sessionTitle sessionGroup sessionCommand : string)
  (w w1 w2 : World) (storage : Storage) (instances : list Instance.t)
  (groups : list GroupData.t) (inst : Instance.t) :
  NewStorage w = (inr storage, w1) ->
  LoadWithGroups storage w1 = (inr (instances, groups), w2) ->
  inst ∈ instances ->
  Instance.ProjectPath inst = projectPath ->
  exists found,
    handleAdd projectPath sessionTitle sessionGroup sessionCommand w
    = (AddAlreadyExists found, w2) /\
    Instance.ProjectPath found = projectPath /\
    files w2 = files w.
Proof.
  intros Hstorage Hload Hin Hpath.
  destruct (find_ProjectPath projectPath instances inst Hin Hpath)
    as (found & Hfind & _ & Hp).
  exists found. unfold handleAdd, bind.
  rewrite Hstorage, Hload, Hfind. split_ands; try easy.
  apply NewStorage_inv in Hstorage as (Hf1 & _).
  pose proof (LoadWithGroups_reads_only storage w1) as Hreads.
  cbv zeta in Hreads. rewrite Hload in Hreads. cbn in Hreads.
  destruct Hreads as (Hf2 & _). congruence.
Qed.

(** X13: adding the same directory twice adds it once. When the first
    add goes through, with a new instance that is at the project path,
    a project path that a load leaves as it is, and a snapshot that
    survives marshalling and unmarshalling, a second add of that path,
    whatever its title, group and command, reports the instance as
    already there and changes no file. *)
Theorem handleAdd_twice `{Externals}
  (projectPath sessionTitle sessionGroup sessionCommand : string)
  (title' group' command' : string)
  (w w1 w2 : World) (storage : Storage) (instances : list Instance.t)
  (groups : list GroupData.t) (jsonData : string) :
  NewStorage w = (inr storage, w1) ->
  LoadWithGroups storage w1 = (inr (instances, groups), w2) ->
  (forall i, i ∈ instances -> Instance.ProjectPath i <> projectPath) ->
  let inst := addedInstance w2 projectPath sessionTitle sessionGroup
                sessionCommand in
  let data := storageData (instances ++ [inst])
                (Some (addedGroupTree (instances ++ [inst]) groups inst))
                (clock w2) in
  Instance.ProjectPath inst = projectPath ->
  expandTilde (environ w) projectPath = projectPath ->
  json_MarshalIndent data = inr jsonData ->
  json_Unmarshal jsonData = inr data ->
  calls_succeed 8 w2 ->
  exists w',
    handleAdd projectPath sessionTitle sessionGroup sessionCommand w
    = (Added inst, w') /\
    exists found w'',
      handleAdd projectPath title' group' command' w'
      = (AddAlreadyExists found, w'') /\
      Instance.ProjectPath found = projectPath /\
      files w'' = files w'.
Proof.
  intros Hstorage Hload Hfresh inst data Hinst Hplain Hm Hu Hcalls.
  pose proof (NewStorage_inv _ _ _ Hstorage) as (_ & He1 & Hpath).
  pose proof (LoadWithGroups_reads_only storage w1) as Hreads.
  cbv zeta in Hreads. rewrite Hload in Hreads. cbn in Hreads.
  destruct Hreads as (_ & He2 & _).
  apply find_none_ProjectPath in Hfresh.
  rewrite (handleAdd_loaded _ _ _ _ _ _ _ _ _ _ Hstorage Hload Hfresh).
  cbv zeta. fold inst.
  destruct (SaveWithGroups_succeeds storage (instances ++ [inst])
              (Some (addedGroupTree (instances ++ [inst]) groups inst))
              w2 jsonData 3 Hm Hcalls)
    as (w3 & Hsave & Hfile & He3 & Hcalls3).
  rewrite Hsave. exists w3. split; [reflexivity |].
  assert (Henv : environ w3 = environ w) by congruence.
  rewrite <- Henv in Hpath.
  destruct (NewStorage_ok w3 storage 2 Hpath Hcalls3)
    as (w4 & Hstorage' & Hf4 & He4 & Hcalls4).
  rewrite <- Hf4 in Hfile.
  destruct (LoadWithGroups_parsed storage w4 jsonData data Hfile Hu Hcalls4)
    as (loaded & w5 & Hload' & Hall & _).
  assert (Hin : exists found, found ∈ loaded /\
                              Instance.ProjectPath found = projectPath).
  { subst data. cbn [StorageData.Instances storageData] in Hall.
    rewrite map_app in Hall. apply Forall2_app_inv_l in Hall
      as (l1 & l2 & _ & Hlast & ->).
    cbn in Hlast. apply Forall2_cons_inv_l in Hlast
      as (found & l3 & (st & -> & _) & _ & ->).
    eexists. split.
    - apply elem_of_app. right. apply list_elem_of_here.
    - cbn. rewrite Hinst. congruence. }
  destruct Hin as (found0 & Hfound0 & Hp0).
  destruct (handleAdd_finds projectPath title' group' command'
              w3 w4 w5 storage loaded (StorageData.Groups data) found0
              Hstorage' Hload' Hfound0 Hp0)
    as (found & Hadd & Hp & Hfiles).
  exists found, w5. split_ands; assumption.
Qed.

Lemma handleAdd_twice_witness :
  let old := Instance.mk "abc1" "web" "/srv/web" "work" "claude" "claude"
               StatusRunning 5%Z None in
  let w := Sample.world
             {[ "/home/op/.agent-deck/sessions.json"
                := Sample.encode (storageData [old] None 7%Z) ]} [] in
  let inst := Instance.mk "id-api" "api" "/srv/api" "srv" "aider" "aider"
                StatusIdle 1700000000%Z None in
  exists w',
    @handleAdd Sample.externals "/srv/api" "api" "" "aider" w
    = (Added inst, w') /\
    exists found w'',
      @handleAdd Sample.externals "/srv/api" "again" "other" "claude" w'
      = (AddAlreadyExists found, w'') /\
      Instance.ProjectPath found = "/srv/api" /\
      files w'' = files w'.
Proof.
  intros old w inst.
  pose (w1 := snd (NewStorage w)).
  pose (w2 := snd (@LoadWithGroups Sample.externals Sample.storage w1)).
  refine (@handleAdd_twice Sample.externals "/srv/api" "api" "" "aider"
            "again" "other" "claude" w w1 w2 Sample.storage [old] []
            (Sample.encode
               (storageData ([old] ++ [inst])
                  (Some (@addedGroupTree Sample.externals ([old] ++ [inst])
                           [] inst)) (clock w2)))
            _ _ _ _ _ _ _ _).
  - vm_compute. reflexivity.
  - vm_compute. reflexivity.
  - intros i Hi. apply list_elem_of_singleton in Hi. subst i. discriminate.
  - reflexivity.
  - reflexivity.
  - reflexivity.
  - vm_compute. reflexivity.
  - reflexivity.
Defined.

(** X14: a remove that does not end with a removal leaves the snapshot
    as it was: no file at all is changed when there is no identifier,
    the storage or the load fails or nothing matches, and when the save
    fails the canonical file holds what it held before. *)
Theorem handleRemove_failure_keeps_snapshot `{Externals} (identifier : string)
  (w : World) :
  let ran := handleRemove identifier w in
  match fst ran with
  | Removed _ => True
  | RemoveSaveFailed _ =>
      forall p, GetStoragePath (environ w) = inr p ->
                files (snd ran) !! p = files w !! p
  | _ => files (snd ran) = files w
  end.
Proof.
  cbv zeta. destruct (handleRemove identifier w) as [o w'] eqn:Hrun.
  cbn [fst snd]. revert Hrun. unfold handleRemove.
  destruct (String.eqb identifier ""); [now intros [= <- <-] |].
  unfold bind at 1.
  destruct (NewStorage w) as [[err | storage] w1] eqn:Hstorage.
  { intros [= <- <-].
    pose proof (NewStorage_keeps w) as Hk. cbv zeta in Hk.
    rewrite Hstorage in Hk. apply Hk. }
  pose proof (NewStorage_inv _ _ _ Hstorage) as (Hf1 & He1 & Hpath).
  pose proof (LoadWithGroups_reads_only storage w1) as Hreads.
  cbv zeta in Hreads. unfold bind at 1.
  destruct (LoadWithGroups storage w1) as [[err | [instances groups]] w2]
    eqn:Hload; cbn in Hreads; destruct Hreads as (Hf2 & He2 & _).
  { intros [= <- <-]. congruence. }
  destruct (remove_loop_inv identifier instances false EmptyString [] w2)
    as (w3 & kills & Hloop & Hf3 & _).
  unfold bind at 1. rewrite Hloop.
  destruct (false || existsb (matches identifier) instances); cbn [negb].
  - unfold bind.
    destruct (SaveWithGroups storage _ _ w3) as [[e|] w4] eqn:Hsave;
      intros [= <- <-]; [| exact I].
    apply SaveWithGroups_effect in Hsave as (_ & Hkeep & _).
    intros p Hp. rewrite Hp in Hpath. injection Hpath as ->.
    rewrite Hkeep by discriminate. congruence.
  - intros [= <- <-]. congruence.
Qed.

Lemma matches_loaded `{Externals} (env : gmap string string)
  (identifier : string) (inst inst' : Instance.t) :
  loaded_from env (instanceData inst) inst' ->
  matches identifier inst' = matches identifier inst.
Proof. intros (st & -> & _). reflexivity. Qed.

(** X15: removing twice removes once. When a remove goes through, with
    a snapshot of the instances that are kept that survives marshalling
    and unmarshalling, a second remove with the same identifier finds
    nothing to remove and reports that the session was not found. *)
Theorem handleRemove_twice `{Externals} (identifier : string)
  (w w1 w2 : World) (storage : Storage) (instances : list Instance.t)
  (groups : list GroupData.t) (inst : Instance.t) (jsonData : string) :
  identifier <> EmptyString ->
  NewStorage w = (inr storage, w1) ->
  LoadWithGroups storage w1 = (inr (instances, groups), w2) ->
  inst ∈ instances ->
  matches identifier inst = true ->
  let kept := List.filter (fun i => negb (matches identifier i)) instances in
  let data := storageData kept (Some (NewGroupTreeWithGroups kept groups))
                (clock w2) in
  json_MarshalIndent data = inr jsonData ->
  json_Unmarshal jsonData = inr data ->
  calls_succeed 8 w2 ->
  exists removedTitle w',
    handleRemove identifier w = (Removed removedTitle, w') /\
    exists w'', handleRemove identifier w' = (RemoveNotFound, w'').
Proof.
  intros Hid Hstorage Hload Hin Hmatch kept data Hm Hu Hcalls.
  pose proof (NewStorage_inv _ _ _ Hstorage) as (_ & He1 & Hpath).
  pose proof (LoadWithGroups_reads_only storage w1) as Hreads.
  cbv zeta in Hreads. rewrite Hload in Hreads. cbn in Hreads.
  destruct Hreads as (_ & He2 & _).
  destruct (remove_loop_inv identifier instances false EmptyString [] w2)
    as (w3 & kills & Hloop & _ & Hfa3 & He3 & Hc3 & _).
  assert (Hfound : existsb (matches identifier) instances = true).
  { apply existsb_exists. exists inst. split; [| assumption].
    now apply list_elem_of_In. }
  assert (Hsaved : exists w4,
             SaveWithGroups storage kept
               (Some (NewGroupTreeWithGroups kept groups)) w3 = (None, w4) /\
             files w4 !! path storage = Some jsonData /\
             environ w4 = environ w3 /\ calls_succeed 3 w4).
  { apply SaveWithGroups_succeeds.
    - rewrite Hc3. exact Hm.
    - eapply calls_succeed_trace; eassumption. }
  destruct Hsaved as (w4 & Hsave & Hfile & He4 & Hcalls4).
  assert (Hfirst : handleRemove identifier w
                   = (Removed (default EmptyString
                        (Instance.Title <$>
                           last (List.filter (matches identifier) instances))),
                      w4)).
  { unfold handleRemove.
    destruct (String.eqb_spec identifier ""); [contradiction |].
    unfold bind at 1. rewrite Hstorage.
    unfold bind at 1. rewrite Hload.
    unfold bind at 1. rewrite Hloop, Hfound. cbn [orb negb app].
    fold kept. unfold bind. now rewrite Hsave. }
  eexists _, w4. split; [exact Hfirst |].
  assert (Henv : environ w4 = environ w) by congruence.
  rewrite <- Henv in Hpath.
  destruct (NewStorage_ok w4 storage 2 Hpath Hcalls4)
    as (w5 & Hstorage' & Hf5 & He5 & Hcalls5).
  rewrite <- Hf5 in Hfile.
  destruct (LoadWithGroups_parsed storage w5 jsonData data Hfile Hu Hcalls5)
    as (loaded & w6 & Hload' & Hall & _).
  assert (Hnone : existsb (matches identifier) loaded = false).
  { subst data. cbn [StorageData.Instances storageData] in Hall.
    change (map instanceData kept) with (instanceData <$> kept) in Hall.
    rewrite Forall2_fmap_l in Hall.
    assert (Hkept : Forall (fun i => matches identifier i = false) kept).
    { apply Forall_forall. intros i Hi. subst kept.
      apply list_elem_of_In, filter_In in Hi as [_ Hi].
      now apply negb_true_iff in Hi. }
    clear -Hall Hkept.
    induction Hall as [|i i' l l' Hfrom Hall IH]; [reflexivity |].
    apply Forall_cons in Hkept as [Hi Hkept].
    cbn [existsb]. rewrite (matches_loaded _ _ _ _ Hfrom), Hi.
    now apply IH. }
  destruct (remove_loop_inv identifier loaded false EmptyString [] w6)
    as (w7 & kills' & Hloop' & _).
  exists w7. unfold handleRemove.
  destruct (String.eqb_spec identifier ""); [contradiction |].
  unfold bind at 1. rewrite Hstorage'.
  unfold bind at 1. rewrite Hload'.
  unfold bind at 1. rewrite Hloop', Hnone. reflexivity.
Qed.

Lemma handleRemove_twice_witness :
  let web := Instance.mk "abc1" "web" "/srv/web" "work" "claude" "claude"
               StatusRunning 5%Z None in
  let docs := Instance.mk "xyz9" "docs" "/srv/docs" "work" "" "shell"
                StatusIdle 7%Z None in
  let w := Sample.world
             {[ "/home/op/.agent-deck/sessions.json"
                := Sample.encode (storageData [web; docs] None 7%Z) ]} [] in
  exists removedTitle w',
    @handleRemove Sample.externals "web" w = (Removed removedTitle, w') /\
    exists w'', @handleRemove Sample.externals "web" w' = (RemoveNotFound, w'').
Proof.
  intros web docs w.
  pose (w1 := snd (NewStorage w)).
  pose (w2 := snd (@LoadWithGroups Sample.externals Sample.storage w1)).
  refine (@handleRemove_twice Sample.externals "web" w w1 w2 Sample.storage
            [web; docs] [] web
            (Sample.encode
               (storageData [docs] (Some (Sample.treeOf [docs] [])) (clock w2)))
            _ _ _ _ _ _ _ _).
  - discriminate.
  - vm_compute. reflexivity.
  - vm_compute. reflexivity.
  - apply list_elem_of_here.
  - reflexivity.
  - reflexivity.
  - vm_compute. reflexivity.
  - reflexivity.
Defined.

(** ** The requests to the multiplexer host *)

Lemma loadInstance_trace `{Externals} (d : InstanceData.t) (w : World) :
  trace (snd (loadInstance d w)) = trace w ++ reconnect_events d.
Proof.
  unfold loadInstance, reconnect_events, bind, ret, get_environ,
    tmux_EnableMouseMode, emit, Instance_UpdateStatus.
  destruct (String.eqb (InstanceData.TmuxSession d) ""); cbn.
  - now rewrite app_nil_r.
  - now rewrite <- app_assoc.
Qed.

Lemma mapM_loadInstance_trace `{Externals} (ds : list InstanceData.t)
  (w : World) :
  trace (snd (mapM loadInstance ds w))
  = trace w ++ flat_map reconnect_events ds.
Proof.
  revert w. induction ds as [|d ds IH]; intros w.
  - cbn. now rewrite app_nil_r.
  - cbn [mapM flat_map]. unfold bind at 1.
    pose proof (loadInstance_trace d w) as Hd.
    destruct (loadInstance d w) as [inst w1]. cbn in Hd.
    unfold bind at 1. specialize (IH w1).
    destruct (mapM loadInstance ds w1) as [insts w2]. cbn in IH. cbn.
    now rewrite IH, Hd, <- app_assoc.
Qed.

(** X16: a load that parses the canonical file makes, after the lookup
    and the read of that file, one mouse-mode request and one status
    update for each persisted record that names a session, record by
    record in the order of the snapshot, and no request for a record
    that names none; it makes no other call. *)
Theorem LoadWithGroups_reconnects_in_order `{Externals} (s : Storage)
  (w : World) (jsonData : string) (data : StorageData.t) :
  files w !! path s = Some jsonData ->
  json_Unmarshal jsonData = inr data ->
  calls_succeed 2 w ->
  trace (snd (LoadWithGroups s w))
  = trace w
    ++ [EvSys (Stat (path s)) None; EvSys (ReadFile (path s)) None]
    ++ flat_map reconnect_events (StorageData.Instances data).
Proof.
  intros Hfile Hparse Hcalls.
  unfold LoadWithGroups, bind.
  destruct (os_Stat (path s) w) as [st w1] eqn:Hstat.
  apply os_Stat_inv in Hstat as (Ht1 & Hf1 & (Hfa1 & _) & _ & Hst).
  specialize (Hst (calls_succeed_now _ _ Hcalls)).
  rewrite Hfile in Hst. subst st. cbn [os_IsNotExist].
  pose proof (calls_succeed_next _ _ _ Hcalls Hfa1) as Hcalls1.
  destruct (os_ReadFile (path s) w1) as [r w2] eqn:Hread.
  apply os_ReadFile_inv in Hread as (Ht2 & _ & _ & _ & Hr).
  specialize (Hr (calls_succeed_now _ _ Hcalls1)).
  rewrite Hf1, Hfile in Hr. subst r. rewrite Hparse.
  pose proof (mapM_loadInstance_trace (StorageData.Instances data) w2) as Ht3.
  destruct (mapM loadInstance (StorageData.Instances data) w2)
    as [instances w3].
  cbn in Ht3. cbn. rewrite Ht3, Ht2, Ht1, <- !app_assoc. reflexivity.
Qed.

Lemma LoadWithGroups_reconnects_in_order_witness :
  let bound := InstanceData.mk "abc2" "api" "/srv/api" "srv" "" "shell"
                 StatusIdle 6%Z "agentdeck_api" in
  let free := InstanceData.mk "abc1" "web" "/srv/web" "work" "claude"
                "claude" StatusIdle 5%Z "" in
  let data := StorageData.mk [free; bound] [] 7%Z in
  let w := Sample.world
             {[ "/home/op/.agent-deck/sessions.json" := Sample.encode data ]}
             [] in
  trace (snd (@LoadWithGroups Sample.externals Sample.storage w))
  = trace w
    ++ [EvSys (Stat (path Sample.storage)) None;
        EvSys (ReadFile (path Sample.storage)) None]
    ++ flat_map reconnect_events (StorageData.Instances data).
Proof.
  intros bound free data w.
  apply (@LoadWithGroups_reconnects_in_order Sample.externals Sample.storage
           w (Sample.encode data) data).
  - reflexivity.
  - vm_compute. reflexivity.
  - reflexivity.
Defined.

Lemma SaveWithGroups_trace_grows `{Externals} (s : Storage)
  (instances : list Instance.t) (groupTree : option GroupTree.t) (w : World) :
  exists evs,
    trace (snd (SaveWithGroups s instances groupTree w)) = trace w ++ evs.
Proof.
  unfold SaveWithGroups, bind, time_Now.
  destruct (json_MarshalIndent _) as [msg | jsonData].
  { exists []. cbn. now rewrite app_nil_r. }
  destruct (os_WriteFile _ jsonData w) as [e1 w1] eqn:Hwrite.
  apply os_WriteFile_inv in Hwrite as (Ht1 & _).
  destruct e1 as [e1|]; [eexists; exact Ht1 |].
  assert (Hfinish : forall w3 evs,
    trace w3 = trace w ++ evs ->
    exists evs',
      trace (snd (let (a0, w4) :=
                    os_Rename (path s +:+ ".tmp") (path s) w3 in
                  match a0 with
                  | Some e => ret (Some (ErrFinalize e))
                  | None => ret None
                  end w4)) = trace w ++ evs').
  { intros w3 evs Ht3.
    destruct (os_Rename _ _ w3) as [e4 w4] eqn:Hren.
    apply os_Rename_inv in Hren as (Ht4 & _).
    eexists. destruct e4; cbn; rewrite Ht4, Ht3, <- app_assoc; reflexivity. }
  destruct (os_Stat (path s) w1) as [st w2] eqn:Hstat.
  apply os_Stat_inv in Hstat as (Ht2 & _).
  destruct st as [e|].
  - eapply Hfinish. rewrite Ht2, Ht1, <- app_assoc. reflexivity.
  - destruct (copyFile (path s) (path s +:+ ".bak") w2) as [e3 w3] eqn:Hcopy.
    apply copyFile_inv in Hcopy as (_ & _ & _ & _ & Hcases).
    destruct Hcases as [(e & Ht3 & _) | (d & _ & Ht3 & _)];
      eapply Hfinish; rewrite Ht3, Ht2, Ht1, <- !app_assoc; reflexivity.
Qed.

(** X17: a remove asks for the sessions to be ended before it saves, so
    the request for a matching instance whose session is live is made
    whatever the save then does; when the save fails the canonical file
    still holds the snapshot that lists the instance. *)
Theorem handleRemove_kills_before_save `{Externals} (identifier : string)
  (w w1 w2 : World) (storage : Storage) (instances : list Instance.t)
  (groups : list GroupData.t) (inst : Instance.t) (sess : tmux.Session) :
  identifier <> EmptyString ->
  NewStorage w = (inr storage, w1) ->
  LoadWithGroups storage w1 = (inr (instances, groups), w2) ->
  inst ∈ instances ->
  matches identifier inst = true ->
  Instance.tmuxSession inst = Some sess ->
  tmux.Name sess ∈ sessions w2 ->
  let ran := handleRemove identifier w in
  EvKill (tmux.Name sess) ∈ trace (snd ran) /\
  (forall e, fst ran <> RemoveStorageFailed e) /\
  (forall e, fst ran <> RemoveLoadFailed e) /\
  fst ran <> RemoveNotFound /\
  (forall e, fst ran = RemoveSaveFailed e ->
             files (snd ran) !! path storage = files w !! path storage).
Proof.
  intros Hid Hstorage Hload Hin Hmatch Hsess Hlive ran.
  pose proof (NewStorage_inv _ _ _ Hstorage) as (Hf1 & _ & _).
  pose proof (LoadWithGroups_reads_only storage w1) as Hreads.
  cbv zeta in Hreads. rewrite Hload in Hreads. cbn in Hreads.
  destruct Hreads as (Hf2 & _).
  destruct (remove_loop_inv identifier instances false EmptyString [] w2)
    as (w3 & kills & Hloop & Hf3 & _ & _ & _ & Ht3 & Hk).
  assert (Hfound : existsb (matches identifier) instances = true).
  { apply existsb_exists. exists inst. split; [| assumption].
    now apply list_elem_of_In. }
  assert (Hkill : EvKill (tmux.Name sess) ∈ kills).
  { apply Hk. exists inst, sess. split_ands; try easy.
    apply list_elem_of_In, filter_In. split; [| assumption].
    now apply list_elem_of_In. }
  set (kept := List.filter (fun i => negb (matches identifier i)) instances).
  assert (Hrun : ran =
            (let (err, w4) :=
               SaveWithGroups storage kept
                 (Some (NewGroupTreeWithGroups kept groups)) w3 in
             (match err with
              | Some e => RemoveSaveFailed e
              | None => Removed (default EmptyString
                          (Instance.Title <$>
                             last (List.filter (matches identifier)
                                     instances)))
              end, w4))).
  { subst ran. unfold handleRemove.
    destruct (String.eqb_spec identifier ""); [contradiction |].
    unfold bind at 1. rewrite Hstorage.
    unfold bind at 1. rewrite Hload.
    unfold bind at 1. rewrite Hloop, Hfound. cbn [orb negb app].
    fold kept. unfold bind.
    destruct (SaveWithGroups storage kept _ w3) as [[e|] w4]; reflexivity. }
  rewrite Hrun. clear Hrun.
  destruct (SaveWithGroups_trace_grows storage kept
              (Some (NewGroupTreeWithGroups kept groups)) w3) as (evs & Hgrow).
  destruct (SaveWithGroups storage kept _ w3) as [res w4] eqn:Hsave.
  cbn in Hgrow. cbn [fst snd].
  apply SaveWithGroups_effect in Hsave as (_ & Hkeep & _).
  split_ands.
  - rewrite Hgrow, Ht3. apply elem_of_app. left. apply elem_of_app. now right.
  - intros e. destruct res; discriminate.
  - intros e. destruct res; discriminate.
  - destruct res; discriminate.
  - intros e He. destruct res as [e'|]; [| discriminate].
    rewrite Hkeep by discriminate. congruence.
Qed.

Lemma handleRemove_kills_before_save_witness :
  let api := Instance.mk "abc2" "api" "/srv/api" "srv" "" "shell"
               StatusIdle 6%Z
               (Some (tmux.mkSession "agentdeck_api" "api" "/srv/api" ""
                        "idle")) in
  let w := mkWorld
             {[ "/home/op/.agent-deck/sessions.json"
                := Sample.encode (storageData [api] None 7%Z) ]}
             Sample.home_env 1700000000%Z {[ "agentdeck_api" ]}
             [None; None; None; None; None; None; None;
              Some (mkFault EIO None)] [] in
  let ran := @handleRemove Sample.externals "api" w in
  EvKill "agentdeck_api" ∈ trace (snd ran) /\
  (forall e, fst ran <> RemoveStorageFailed e) /\
  (forall e, fst ran <> RemoveLoadFailed e) /\
  fst ran <> RemoveNotFound /\
  (forall e, fst ran = RemoveSaveFailed e ->
             files (snd ran) !! path Sample.storage
             = files w !! path Sample.storage).
Proof.
  intros api w ran.
  pose (w1 := snd (NewStorage w)).
  pose (w2 := snd (@LoadWithGroups Sample.externals Sample.storage w1)).
  pose (loaded := set_Status StatusIdle api).
  refine (@handleRemove_kills_before_save Sample.externals "api" w w1 w2
            Sample.storage [loaded] [] loaded
            (tmux.mkSession "agentdeck_api" "api" "/srv/api" "" "idle")
            _ _ _ _ _ _ _).
  - discriminate.
  - vm_compute. reflexivity.
  - vm_compute. reflexivity.
  - apply list_elem_of_here.
  - reflexivity.
  - reflexivity.
  - assert (Hlive : sessions w2 = {[ "agentdeck_api" ]})
      by (vm_compute; reflexivity).
    rewrite Hlive. now apply elem_of_singleton.
Defined.

(** ** The title of an added session *)

Example Base_folder : filepath_Base "/srv/projects/web/" = "web".
Proof. reflexivity. Qed.

Example Base_root : filepath_Base "///" = "/".
Proof. reflexivity. Qed.

Lemma filepath_Base_nonempty (path : string) :
  filepath_Base path <> EmptyString.
Proof.
  unfold filepath_Base.
  destruct (String.eqb path ""); [discriminate |].
  destruct (last _) as [elem|] eqn:Hlast; [| discriminate].
  apply last_Some_elem_of, list_elem_of_In, filter_In in Hlast as [_ Hne].
  apply negb_true_iff in Hne. intros ->. discriminate.
Qed.

(** X18: the title [handleAdd] gives a new session is never empty: it
    is the long title flag when that is given, else the short one when
    that is given, else the folder name of the path, which is not empty
    for any path. *)
Theorem addTitle_never_empty (title titleShort path : string) :
  addTitle title titleShort path <> EmptyString /\
  (title <> EmptyString -> addTitle title titleShort path = title) /\
  (title = EmptyString -> titleShort <> EmptyString ->
   addTitle title titleShort path = titleShort) /\
  (title = EmptyString -> titleShort = EmptyString ->
   addTitle title titleShort path = filepath_Base path).
Proof.
  unfold addTitle, mergeFlags.
  destruct (String.eqb_spec title "") as [-> | Hlong]; cbn [negb].
  - destruct (String.eqb_spec titleShort "") as [-> | Hshort].
    + split_ands; try easy. apply filepath_Base_nonempty.
    + split_ands; easy.
  - destruct (String.eqb_spec title ""); [contradiction |].
    split_ands; easy.
Qed.
